(** * SignalWire call signalling: event routing, call-log upserts and the
    attended-transfer sequence

  A shallow embedding of the TypeScript sources:
  - [SignalWireService] (the slim service: [incomingCallNotification],
    [logCallStatus], [findUserByPhoneNumber], [findRingGroupByPhoneNumber]);
  - the original service ([dial], [updateParticipant],
    [addParticipantToConference], [callStatusUpdate],
    [handleVoiceStatusCallback] and the four attended-transfer helpers);
  - [SignalWireController.attendedTransfer].

  Asynchronous methods become computations in a state-and-exception monad
  over a [World]: the call-log table, the provider's hold flags, the
  messages emitted on the socket server and the trace of outgoing requests.
  What the outside world answers (the telephony provider, the directory
  and lead tables, whether a database is reachable) is an [Env]. *)

From Stdlib Require Import String Ascii List ZArith Bool Lia.
From stdpp Require Import base option strings gmap list.

Local Open Scope string_scope.
Local Open Scope list_scope.
Local Open Scope Z_scope.

(* ===================================================================== *)
(** ** JavaScript values as the sources use them *)
(* ===================================================================== *)

Module Js.

(** An optional string property: [None] is [undefined]. *)
Definition truthy (o : option string) : bool :=
  match o with
  | Some s => negb (String.eqb s "")
  | None => false
  end.

(** [`${x}`] for a value that is a string or [null]. *)
Definition template (o : option string) : string :=
  match o with
  | Some s => s
  | None => "null"
  end.

Definition lower_ascii (c : ascii) : ascii :=
  let n := nat_of_ascii c in
  if ((65 <=? n)%nat && (n <=? 90)%nat)%bool then ascii_of_nat (n + 32) else c.

(** [String.prototype.toLowerCase] on the bytes of a string: the letters
    A-Z are folded, every other byte is kept.  No character outside ASCII
    lower-cases to a letter of ["assigned"], so the comparisons below are
    not affected by the restriction. *)
Fixpoint toLowerCase (s : string) : string :=
  match s with
  | EmptyString => EmptyString
  | String c r => String (lower_ascii c) (toLowerCase r)
  end.

(** A JavaScript number as far as the sources need one: an integer, [NaN]
    or an infinity.  [-0] is not told apart from [0]: the sources only
    print the numbers they parse, and both print as [0]. *)
Inductive number : Type :=
| Num (z : Z)
| NaN
| Infinity (negative : bool).

Definition truthy_number (n : number) : bool :=
  match n with
  | Num z => negb (z =? 0)
  | NaN => false
  | Infinity _ => true
  end.

(** Strings are held as their UTF-8 bytes.  [byte_is n c]: the byte [c] is
    [n]; [byte_in lo hi c]: it lies between [lo] and [hi]. *)
Definition byte_is (n : nat) (c : ascii) : bool := (nat_of_ascii c =? n)%nat.

Definition byte_in (lo hi : nat) (c : ascii) : bool :=
  ((lo <=? nat_of_ascii c) && (nat_of_ascii c <=? hi))%nat%bool.

(** The one-byte white space and line terminators of ECMAScript: TAB, LF,
    VT, FF, CR and the space. *)
Definition is_space (c : ascii) : bool := byte_is 32 c || byte_in 9 13 c.

(** The two-byte one, U+00A0, is [C2 A0]. *)
Definition is_space2 (c d : ascii) : bool := byte_is 194 c && byte_is 160 d.

(** The three-byte ones: U+1680 [E1 9A 80]; U+2000 to U+200A, U+2028,
    U+2029 and U+202F [E2 80 80..8A, A8, A9, AF]; U+205F [E2 81 9F]; U+3000
    [E3 80 80]; U+FEFF [EF BB BF]. *)
Definition is_space3 (c d e : ascii) : bool :=
  (byte_is 225 c && byte_is 154 d && byte_is 128 e)
  || (byte_is 226 c && byte_is 128 d
      && (byte_in 128 138 e || byte_is 168 e || byte_is 169 e || byte_is 175 e))
  || (byte_is 226 c && byte_is 129 d && byte_is 159 e)
  || (byte_is 227 c && byte_is 128 d && byte_is 128 e)
  || (byte_is 239 c && byte_is 187 d && byte_is 191 e).

Definition digit_of (c : ascii) : option Z :=
  let n := nat_of_ascii c in
  if ((48 <=? n) && (n <=? 57))%nat%bool then Some (Z.of_nat (n - 48)) else None.

(** [TrimString(s, start)]: the string without the white space and line
    terminators it starts with. *)
Fixpoint skip_spaces (s : string) : string :=
  match s with
  | EmptyString => EmptyString
  | String c r =>
      if is_space c then skip_spaces r
      else
        match r with
        | String d r2 =>
            if is_space2 c d then skip_spaces r2
            else
              match r2 with
              | String e r3 => if is_space3 c d e then skip_spaces r3 else s
              | EmptyString => s
              end
        | EmptyString => s
        end
  end.

(** The longest prefix of decimal digits, read most significant first. *)
Fixpoint digits (acc : option Z) (s : string) : option Z :=
  match s with
  | String c r =>
      match digit_of c with
      | Some d => digits (Some (10 * default 0 acc + d)) r
      | None => acc
      end
  | EmptyString => acc
  end.

(** The Number value of a natural number [m] with the given sign: [m]
    itself below [2^53]; above, [m] rounded to 53 significant bits, to the
    nearest and to even on a tie; an infinity from [2^1024] on. *)
Definition to_double (negative : bool) (m : Z) : number :=
  let signed (v : Z) := if negative then - v else v in
  if m <? 2 ^ 53 then Num (signed m)
  else
    let e := Z.log2 m - 52 in
    let q := Z.shiftr m e in
    let r := m - Z.shiftl q e in
    let half := Z.shiftl 1 (e - 1) in
    let q' := if (half <? r) || ((r =? half) && Z.odd q) then q + 1 else q in
    let v := Z.shiftl q' e in
    if 2 ^ 1024 <=? v then Infinity negative else Num (signed v).

(** [parseInt(s, 10)]: leading white space is skipped, a sign is read, the
    decimal digits that follow are the value ([NaN] when there is none),
    and the value is the nearest double.  (The standard lets an engine
    zero the digits after the twentieth; this is the exact rounding, which
    Node's engine computes.) *)
Definition parseInt (s : string) : number :=
  let s := skip_spaces s in
  let '(neg, body) :=
    match s with
    | String "-" r => (true, r)
    | String "+" r => (false, r)
    | _ => (false, s)
    end in
  match digits None body with
  | Some z => to_double neg z
  | None => NaN
  end.

End Js.

(* ===================================================================== *)
(** ** The [call_logs] table and the statements sent to it *)
(* ===================================================================== *)

Module Sql.

(** A value bound to a statement parameter or stored in a column.  The
    table definition is not part of the sources, so a column keeps the
    value it was given. *)
Inductive value : Type :=
| VNull
| VText (s : string)
| VNum (z : Z)
| VNaN
| VInfinity (negative : bool)
| VTime (t : Z).

Definition of_string (o : option string) : value :=
  match o with
  | Some s => VText s
  | None => VNull
  end.

Definition of_number (n : Js.number) : value :=
  match n with
  | Js.Num z => VNum z
  | Js.NaN => VNaN
  | Js.Infinity negative => VInfinity negative
  end.

Inductive column : Type :=
| call_sid | call_status | direction | from_number | to_number
| call_duration | recording_url | participant_sid | conference_sid
| timestamp.

Definition column_eqb (a b : column) : bool :=
  match a, b with
  | call_sid, call_sid | call_status, call_status | direction, direction
  | from_number, from_number | to_number, to_number
  | call_duration, call_duration | recording_url, recording_url
  | participant_sid, participant_sid | conference_sid, conference_sid
  | timestamp, timestamp => true
  | _, _ => false
  end.

Record row : Type := Row {
  r_call_sid : value;
  r_call_status : value;
  r_direction : value;
  r_from_number : value;
  r_to_number : value;
  r_call_duration : value;
  r_recording_url : value;
  r_participant_sid : value;
  r_conference_sid : value;
  r_timestamp : value;
}.

Definition null_row : row :=
  Row VNull VNull VNull VNull VNull VNull VNull VNull VNull VNull.

Definition get (c : column) (r : row) : value :=
  match c with
  | call_sid => r_call_sid r
  | call_status => r_call_status r
  | direction => r_direction r
  | from_number => r_from_number r
  | to_number => r_to_number r
  | call_duration => r_call_duration r
  | recording_url => r_recording_url r
  | participant_sid => r_participant_sid r
  | conference_sid => r_conference_sid r
  | timestamp => r_timestamp r
  end.

Definition set (c : column) (v : value) (r : row) : row :=
  let '(Row a b d e f g h i j k) := r in
  match c with
  | call_sid => Row v b d e f g h i j k
  | call_status => Row a v d e f g h i j k
  | direction => Row a b v e f g h i j k
  | from_number => Row a b d v f g h i j k
  | to_number => Row a b d e v g h i j k
  | call_duration => Row a b d e f v h i j k
  | recording_url => Row a b d e f g v i j k
  | participant_sid => Row a b d e f g h v j k
  | conference_sid => Row a b d e f g h i v k
  | timestamp => Row a b d e f g h i j v
  end.

(** The right-hand sides that occur in the statements: [$n] and [NOW()]. *)
Inductive expr : Type :=
| Param (n : nat)
| Now.

(** One [col = expr] of an [UPDATE ... SET] list, with whether the source
    text has a comma after it. *)
Record assignment : Type := Assign {
  target : column;
  source : expr;
  comma_after : bool;
}.

Inductive statement : Type :=
(** [INSERT INTO call_logs (cols) VALUES (vals)], optionally followed by
    [ON CONFLICT (call_sid) DO UPDATE SET c = EXCLUDED.c, ...] and by
    [RETURNING *]. *)
| Insert (cols : list column) (vals : list expr)
         (on_conflict : option (list column)) (returning : bool)
(** [UPDATE call_logs SET ... WHERE call_sid = e]. *)
| Update (sets : list assignment) (where_sid : expr)
(** [SELECT * FROM call_logs WHERE call_sid = e]. *)
| Select (where_sid : expr).

Definition expr_arity (e : expr) : nat :=
  match e with
  | Param n => n
  | Now => 0
  end.

Definition max_list (l : list nat) : nat := fold_right Nat.max 0%nat l.

(** The number of parameters a statement expects: its highest [$n]. *)
Definition arity (s : statement) : nat :=
  match s with
  | Insert _ vals _ _ => max_list (map expr_arity vals)
  | Update sets w =>
      Nat.max (max_list (map (fun a => expr_arity (source a)) sets)) (expr_arity w)
  | Select w => expr_arity w
  end.

(** A [SET] list parses when every assignment but the last is followed by
    a comma. *)
Fixpoint separated (sets : list assignment) : bool :=
  match sets with
  | [] => false
  | [a] => negb (comma_after a)
  | a :: rest => comma_after a && separated rest
  end.

Fixpoint distinct (cols : list column) : bool :=
  match cols with
  | [] => true
  | c :: rest => negb (existsb (column_eqb c) rest) && distinct rest
  end.

(** What the server checks before it runs a statement: the text parses, no
    column is assigned twice, and the parameters supplied are exactly those
    the text refers to. *)
Definition well_formed (s : statement) (nparams : nat) : bool :=
  (arity s =? nparams)%nat &&
  match s with
  | Insert cols vals oc _ =>
      (length cols =? length vals)%nat && distinct cols &&
      match oc with Some cs => distinct cs | None => true end
  | Update sets _ =>
      separated sets && distinct (map target sets)
  | Select _ => true
  end.

Definition eval (now : Z) (params : list value) (e : expr) : value :=
  match e with
  | Param n => nth (pred n) params VNull
  | Now => VTime now
  end.

(** The row an [INSERT] proposes: the listed columns take their values,
    the others are null. *)
Fixpoint proposed (cols : list column) (vals : list value) : row :=
  match cols, vals with
  | c :: cols', v :: vals' => set c v (proposed cols' vals')
  | _, _ => null_row
  end.

(** [SET c = EXCLUDED.c] for each listed column. *)
Definition merge (cs : list column) (old excluded : row) : row :=
  fold_left (fun r c => set c (get c excluded) r) cs old.

Definition assign_all (now : Z) (params : list value)
    (sets : list assignment) (old : row) : row :=
  fold_left (fun r a => set (target a) (eval now params (source a)) r) sets old.

Record outcome : Type := Outcome {
  rows : list row;
  rowCount : nat;
}.

Definition key_of (v : value) : option string :=
  match v with
  | VText s => Some s
  | _ => None
  end.

(** Running a statement against the table at time [now].  [None] is a
    statement the server rejects.  The table is keyed by [call_sid]: the
    unique index that [ON CONFLICT (call_sid)] names. *)
Definition run (now : Z) (s : statement) (params : list value)
    (t : gmap string row) : option (outcome * gmap string row) :=
  if negb (well_formed s (length params)) then None
  else
    match s with
    | Insert cols vals oc returning =>
        let new := proposed cols (map (eval now params) vals) in
        match key_of (r_call_sid new) with
        | None => None
        | Some k =>
            match t !! k, oc with
            | None, _ =>
                Some (Outcome (if returning then [new] else []) 1, <[k := new]> t)
            | Some old, Some cs =>
                let r := merge cs old new in
                Some (Outcome (if returning then [r] else []) 1, <[k := r]> t)
            | Some _, None => None
            end
        end
    | Update sets w =>
        match key_of (eval now params w) with
        | Some k =>
            match t !! k with
            | Some old =>
                Some (Outcome [] 1, <[k := assign_all now params sets old]> t)
            | None => Some (Outcome [] 0, t)
            end
        | None => Some (Outcome [] 0, t)
        end
    | Select w =>
        match key_of (eval now params w) with
        | Some k =>
            match t !! k with
            | Some r => Some (Outcome [r] 1, t)
            | None => Some (Outcome [] 0, t)
            end
        | None => Some (Outcome [] 0, t)
        end
    end.

End Sql.

(* ===================================================================== *)
(** ** The outside world *)
(* ===================================================================== *)

(** A call as the provider's REST client returns it. *)
Record CallInstance : Type := {
  ci_sid : string;
  ci_status : string;
  ci_from : string;
  ci_to : string;
}.

(** A row of [public.did_numbers]. *)
Record DidNumber : Type := {
  did_phone_number : string;
  did_status : option string;
  assigned_user : option string;
}.

(** A row of [public.ring_groups]. *)
Record RingGroup : Type := {
  rg_phone_number : string;
  ring_group : option string;
  display_name : option string;
}.

(** A row of [app.combined_leads]. *)
Record Lead : Type := {
  lead_id : Z;
  cell_phone : string;
}.

(** What the environment answers.  A provider request that fails is [None]
    (or [false]); a table that cannot be reached has its [_up] flag off. *)
Record Env : Type := {
  calls_fetch : option string -> option CallInstance;
  calls_create : string -> string -> string -> option CallInstance;
  calls_update : string -> string -> option CallInstance;
  participant_update : string -> string -> bool -> bool;
  call_logs_up : bool;
  did_numbers : list DidNumber;
  did_numbers_up : bool;
  ring_groups : list RingGroup;
  ring_groups_up : bool;
  combined_leads : list Lead;
  combined_leads_up : bool;
}.

(** A property of an emitted message. *)
Inductive field : Type :=
  | FString (v : option string)
  | FLead (v : option Lead).

Record Message : Type := {
  channel : string;
  payload : list (string * field);
}.

(** The requests sent to the telephony provider. *)
Inductive Request : Type :=
  | CallsFetch (sid : option string)
  | CallsCreate (url from to : string)
  | CallsUpdate (sid url : string)
  | ParticipantUpdate (conferenceSid callSid : string) (hold : bool).

(** The directory and lead queries. *)
Inductive Lookup : Type :=
  | LeadByPhone (phone : string)
  | UserByPhone (phone : string)
  | RingGroupByPhone (phone : string).

Record World : Type := {
  clock : Z;
  call_logs : gmap string Sql.row;
  on_hold : gmap (string * string) bool;
  emitted : list Message;
  requests : list Request;
  lookups : list Lookup;
}.

Definition with_clock (t : Z) (w : World) : World :=
  {| clock := t; call_logs := call_logs w; on_hold := on_hold w;
     emitted := emitted w; requests := requests w; lookups := lookups w |}.

Definition with_call_logs (t : gmap string Sql.row) (w : World) : World :=
  {| clock := clock w; call_logs := t; on_hold := on_hold w;
     emitted := emitted w; requests := requests w; lookups := lookups w |}.

Definition with_on_hold (h : gmap (string * string) bool) (w : World) : World :=
  {| clock := clock w; call_logs := call_logs w; on_hold := h;
     emitted := emitted w; requests := requests w; lookups := lookups w |}.

Definition with_emitted (l : list Message) (w : World) : World :=
  {| clock := clock w; call_logs := call_logs w; on_hold := on_hold w;
     emitted := l; requests := requests w; lookups := lookups w |}.

Definition with_requests (l : list Request) (w : World) : World :=
  {| clock := clock w; call_logs := call_logs w; on_hold := on_hold w;
     emitted := emitted w; requests := l; lookups := lookups w |}.

Definition with_lookups (l : list Lookup) (w : World) : World :=
  {| clock := clock w; call_logs := call_logs w; on_hold := on_hold w;
     emitted := emitted w; requests := requests w; lookups := l |}.

(* ===================================================================== *)
(** ** Computations: state and exceptions *)
(* ===================================================================== *)

(** The value of a computation, or the message of the [Error] it threw. *)
Inductive Result (A : Type) : Type :=
  | Ok (a : A)
  | Throw (message : string).
Arguments Ok {A} a.
Arguments Throw {A} message.

Definition M (A : Type) : Type := World -> Result A * World.

Definition ret {A} (a : A) : M A := fun w => (Ok a, w).

Definition throw {A} (message : string) : M A := fun w => (Throw message, w).

Definition bind {A B} (m : M A) (k : A -> M B) : M B :=
  fun w =>
    match m w with
    | (Ok a, w') => k a w'
    | (Throw e, w') => (Throw e, w')
    end.

(** [try { m } catch (error) { h error.message }]: what [m] did to the
    world before it threw stays done. *)
Definition try_catch {A} (m : M A) (h : string -> M A) : M A :=
  fun w =>
    match m w with
    | (Ok a, w') => (Ok a, w')
    | (Throw e, w') => h e w'
    end.

Definition gets {A} (f : World -> A) : M A := fun w => (Ok (f w), w).

Definition modify (f : World -> World) : M unit := fun w => (Ok tt, f w).

Notation "'let*' x ':=' m 'in' k" := (bind m (fun x => k))
  (at level 10, x pattern, m at level 200, k at level 200).

(* ===================================================================== *)
(** ** Webhook payloads and HTTP exchanges *)
(* ===================================================================== *)

(** Modelled from the spec: the request types of [signalwire.model] are not
    among the sources.  These are the webhook fields the spec lists and the
    handlers read; the provider posts a form, so a field is a string or
    absent. *)
Record Payload : Type := {
  CallSid : option string;
  ConferenceSid : option string;
  From : option string;
  To : option string;
  Timestamp : option string;
  CallStatus : option string;
  Direction : option string;
  StatusCallbackEvent : option string;
  ReasonConferenceEnded : option string;
  CallSidEndingConference : option string;
  CallDuration : option string;
  RecordingUrl : option string;
  participantSid : option string;
}.

(** The body of [POST /call/transfer/attended]. *)
Record TransferBody : Type := {
  conferenceSid : option string;
  originalCallSid : option string;
  consultFrom : option string;
  consultTo : option string;
  consultUrl : option string;
}.

(** [res.status(code).json({ key: text })]. *)
Record Response : Type := {
  status : nat;
  json : string * string;
}.

(* ===================================================================== *)
(** ** The service *)
(* ===================================================================== *)

Section Service.

Variable env : Env.

Import Sql.

(** [this.ioServer.emit(channel, payload)]. *)
Definition emit (ch : string) (p : list (string * field)) : M unit :=
  modify (fun w => with_emitted (emitted w ++ [{| channel := ch; payload := p |}]) w).

(** The errors of the database driver, for a database that cannot be
    reached and for a statement the server rejects.  Their texts are the
    driver's and the server's and are not known here: these two stand for
    them.  A driver error leaves the services unchanged only from
    [handleVoiceStatusCallback] and the number functions, every other
    function replaces it; what is stated of those two says that an error
    is thrown, not which. *)
Definition unreachable : string := "database unreachable".
Definition rejected : string := "statement rejected".

(** Modelled from the spec: [query(text, values)] of [signalwire.database]
  is not among the sources.  It hands the statement to the database that
  holds [call_logs]; a failure of the store reaches the caller as an
  exception. *)
Definition query (text : statement) (values : list value) : M outcome :=
  fun w =>
    if call_logs_up env then
      match run (clock w) text values (call_logs w) with
      | Some (o, t) => (Ok o, with_call_logs t w)
      | None => (Throw rejected, w)
      end
    else (Throw unreachable, w).

(** [x || null] for an optional string and for an optional number. *)
Definition or_null (o : option string) : value :=
  if Js.truthy o then of_string o else VNull.

Definition number_or_null (o : option Js.number) : value :=
  match o with
  | Some n => if Js.truthy_number n then of_number n else VNull
  | None => VNull
  end.

(** The statement [logCallStatus] builds: the [recording_url] assignment
    is spliced into the text only for a truthy [recordingUrl]. *)
Definition logCallStatus_text (recordingUrl : option string) : statement :=
  Insert
    [call_sid; call_status; direction; from_number; to_number;
     call_duration; recording_url; participant_sid; conference_sid; timestamp]
    [Param 1; Param 2; Param 3; Param 4; Param 5;
     Param 6; Param 7; Param 8; Param 9; Now]
    (Some ([call_status; call_duration; participant_sid; conference_sid; timestamp]
           ++ (if Js.truthy recordingUrl then [recording_url] else [])))
    false.

Definition logCallStatus (callSid callStatus direction from to : string)
    (callDuration : option Js.number)
    (recordingUrl participantSid conferenceSid : option string)
    : M (option row) :=
  try_catch
    (let queryText := logCallStatus_text recordingUrl in
     let values :=
       [VText callSid; VText callStatus; VText direction; VText from; VText to;
        number_or_null callDuration; or_null recordingUrl;
        or_null participantSid; or_null conferenceSid] in
     let* result := query queryText values in
     let* _ := emit "outbound-call-status"
                 [("callSid", FString (Some callSid));
                  ("status", FString (Some callStatus));
                  ("from", FString (Some from));
                  ("to", FString (Some to))] in
     ret (head (rows result)))
    (fun _ => throw "Failed to insert call log into database").

(** [SELECT * FROM app.combined_leads WHERE cell_phone = $1 LIMIT 1]. *)
Definition findLeadByPhoneNumber (phoneNumber : string) : M (option Lead) :=
  let* _ := modify (fun w => with_lookups (lookups w ++ [LeadByPhone phoneNumber]) w) in
  if combined_leads_up env then
    ret (List.find (fun l => String.eqb (cell_phone l) phoneNumber) (combined_leads env))
  else throw unreachable.

(** [SELECT ... FROM public.did_numbers WHERE phone_number = $1 LIMIT 1]. *)
Definition findUserByPhoneNumber (phoneNumber : string) : M (option DidNumber) :=
  try_catch
    (let* _ := modify (fun w => with_lookups (lookups w ++ [UserByPhone phoneNumber]) w) in
     if did_numbers_up env then
       ret (List.find (fun d => String.eqb (did_phone_number d) phoneNumber)
                      (did_numbers env))
     else throw unreachable)
    (fun _ => throw "Failed to find user by phone number").

(** [SELECT ... FROM public.ring_groups WHERE phone_number = $1 LIMIT 1]. *)
Definition findRingGroupByPhoneNumber (phoneNumber : string) : M (option RingGroup) :=
  let* _ := modify (fun w => with_lookups (lookups w ++ [RingGroupByPhone phoneNumber]) w) in
  if ring_groups_up env then
    ret (List.find (fun g => String.eqb (rg_phone_number g) phoneNumber)
                   (ring_groups env))
  else throw unreachable.

(** [this.signalWireClient.calls(sid).fetch()]. *)
Definition fetchCall (sid : option string) : M CallInstance :=
  let* _ := modify (fun w => with_requests (requests w ++ [CallsFetch sid]) w) in
  match calls_fetch env sid with
  | Some c => ret c
  | None => throw "provider request failed"
  end.

(** [user && user.status.toLowerCase() === "assigned"]: a row whose
    [status] is null makes [toLowerCase] throw. *)
Definition assigned (user : option DidNumber) : M bool :=
  match user with
  | None => ret false
  | Some u =>
      match did_status u with
      | Some s => ret (String.eqb (Js.toLowerCase s) "assigned")
      | None => throw "Cannot read properties of null (reading 'toLowerCase')"
      end
  end.

Definition participantJoin (input : Payload) (to : string) : M unit :=
  let* participantResponse := fetchCall (CallSid input) in
  let* _ := logCallStatus (ci_sid participantResponse) (ci_status participantResponse)
              "inbound" (ci_from participantResponse) (ci_to participantResponse)
              None None None (ConferenceSid input) in
  let* existingLead := findLeadByPhoneNumber (ci_from participantResponse) in
  let* user := findUserByPhoneNumber (ci_to participantResponse) in
  let* isAssigned := assigned user in
  if isAssigned then
    emit ("user-notification-" +:+ Js.template (user ≫= assigned_user))
      [("conferenceSid", FString (ConferenceSid input));
       ("callSid", FString (CallSid input));
       ("from", FString (Some (ci_from participantResponse)));
       ("to", FString (Some to));
       ("leadData", FLead existingLead)]
  else
    let* ringGroup := findRingGroupByPhoneNumber (ci_to participantResponse) in
    match ringGroup with
    | Some g =>
        emit "ring-group-notification"
          [("conferenceSid", FString (ConferenceSid input));
           ("callSid", FString (CallSid input));
           ("from", FString (Some (ci_from participantResponse)));
           ("to", FString (Some to));
           ("source", FString (display_name g));
           ("leadData", FLead existingLead)]
    | None =>
        emit "incoming-call"
          [("conferenceSid", FString (ConferenceSid input));
           ("callSid", FString (CallSid input));
           ("from", FString (Some (ci_from participantResponse)));
           ("leadData", FLead existingLead)]
    end.

Definition callStatus (input : Payload) (to status : string) : M unit :=
  if negb (String.eqb status "completed") then
    let* user := findUserByPhoneNumber to in
    let* isAssigned := assigned user in
    let body :=
      [("callSid", FString (CallSid input));
       ("callStatus", FString (Some status));
       ("from", FString (From input));
       ("to", FString (Some to));
       ("timestamp", FString (Timestamp input))] in
    if isAssigned then
      emit ("user-call-status-" +:+ Js.template (user ≫= assigned_user)) body
    else
      emit "call-status-update" body
  else ret tt.

(** Processes an incoming call notification from SignalWire. *)
Definition incomingCallNotification (input : Payload) : M unit :=
  try_catch
    (let to := default "" (To input) in
     if Js.truthy (StatusCallbackEvent input) then
       let event := default "" (StatusCallbackEvent input) in
       if String.eqb event "participant-join" then participantJoin input to
       else if String.eqb event "participant-leave" then
         emit "participant-leave"
           [("conferenceSid", FString (ConferenceSid input));
            ("callSid", FString (CallSid input));
            ("from", FString (From input));
            ("to", FString (To input))]
       else if String.eqb event "conference-end" then
         emit "conference-end"
           [("conferenceSid", FString (ConferenceSid input));
            ("reason", FString (ReasonConferenceEnded input));
            ("callSidEndingConference", FString (CallSidEndingConference input))]
       else ret tt
     else if Js.truthy (CallStatus input) then
       callStatus input to (default "" (CallStatus input))
     else ret tt)
    (fun _ => throw "Error receiving webhook data").

(* ------------------------------------------------------------------- *)
(** *** Call-status webhooks of the original service *)

(** [Timestamp || new Date().toISOString()]. *)
Definition timestamp_or_now (o : option string) (now : Z) : value :=
  if Js.truthy o then of_string o else VTime now.

(** [CallDuration ? parseInt(CallDuration, 10) : null]. *)
Definition parsed_duration (o : option string) : value :=
  if Js.truthy o then of_number (Js.parseInt (default "" o)) else VNull.

Definition callStatusUpdate_text : statement :=
  Insert
    [call_sid; call_status; timestamp; direction; from_number; to_number;
     call_duration; recording_url]
    [Param 1; Param 2; Param 3; Param 4; Param 5; Param 6; Param 7; Param 8]
    (Some [call_status; timestamp; call_duration; recording_url])
    true.

Definition callStatusUpdate (data : Payload) : M (option row) :=
  try_catch
    (let* now := gets clock in
     let values :=
       [of_string (CallSid data); of_string (CallStatus data);
        timestamp_or_now (Timestamp data) now;
        of_string (Direction data); of_string (From data); of_string (To data);
        parsed_duration (CallDuration data); of_string (RecordingUrl data)] in
     let* result := query callStatusUpdate_text values in
     ret (head (rows result)))
    (fun _ => throw "Failed to insert call log into database").

(** The [UPDATE] of [handleVoiceStatusCallback] as the source spells it:
    [recording_url] is assigned twice (the second time as [recording_Url],
    which the server folds to the same name), no comma follows [$5], and
    the [WHERE] clause refers to [$6]. *)
Definition voiceStatus_update : statement :=
  Update
    [Assign call_status (Param 1) true;
     Assign call_duration (Param 2) true;
     Assign recording_url (Param 3) true;
     Assign participant_sid (Param 4) true;
     Assign recording_url (Param 5) false;
     Assign timestamp Now false]
    (Param 6).

Definition voiceStatus_insert : statement :=
  Insert
    [call_sid; call_status; from_number; to_number; call_duration;
     recording_url; participant_sid; timestamp]
    [Param 1; Param 2; Param 3; Param 4; Param 5; Param 6; Param 7; Now]
    None
    false.

Definition handleVoiceStatusCallback (payload : Payload) : M unit :=
  try_catch
    (let* existingCallLog := query (Select (Param 1)) [of_string (CallSid payload)] in
     if (0 <? rowCount existingCallLog)%nat then
       let* _ := query voiceStatus_update
                   [of_string (CallStatus payload); of_string (CallDuration payload);
                    of_string (participantSid payload); of_string (CallSid payload)] in
       ret tt
     else
       let* _ := query voiceStatus_insert
                   [of_string (CallSid payload); of_string (CallStatus payload);
                    of_string (From payload); of_string (To payload);
                    of_string (CallDuration payload); of_string (RecordingUrl payload);
                    of_string (participantSid payload)] in
       ret tt)
    (fun error => throw error).

(* ------------------------------------------------------------------- *)
(** *** Dialling and the attended-transfer steps *)

(** What [dial] returns, as far as its callers read it. *)
Record Dialled : Type := {
  callSid : string;
  dial_status : string;
}.

Definition dial (from to url : string) : M Dialled :=
  try_catch
    (let* _ := modify (fun w => with_requests (requests w ++ [CallsCreate url from to]) w) in
     match calls_create env url from to with
     | None => throw "provider request failed"
     | Some response =>
         let* _ := logCallStatus (ci_sid response) (ci_status response)
                     "outbound" from to None None None None in
         ret {| callSid := ci_sid response; dial_status := ci_status response |}
     end)
    (fun _ => throw "Failed to initiate call").

(** [POST .../Conferences/{conferenceSid}/Participants/{callSid}] with
    [Hold=true] or [Hold=false]; the provider sets the flag when it accepts
    the request. *)
Definition updateParticipant (conferenceSid callSid : string) (Hold : bool) : M unit :=
  try_catch
    (let* _ := modify (fun w =>
                 with_requests
                   (requests w ++ [ParticipantUpdate conferenceSid callSid Hold]) w) in
     if participant_update env conferenceSid callSid Hold then
       modify (fun w => with_on_hold (<[(conferenceSid, callSid) := Hold]> (on_hold w)) w)
     else throw "provider request failed")
    (fun _ => throw "Failed to update participant").

Definition addParticipantToConference (callSid lamlBinUrl : string) : M CallInstance :=
  try_catch
    (let* _ := modify (fun w =>
                 with_requests (requests w ++ [CallsUpdate callSid lamlBinUrl]) w) in
     match calls_update env callSid lamlBinUrl with
     | Some response => ret response
     | None => throw "provider request failed"
     end)
    (fun _ => throw "Failed to add participant").

Definition holdOriginalParticipant (conferenceSid callSid : string) : M unit :=
  try_catch
    (updateParticipant conferenceSid callSid true)
    (fun message => throw ("Failed to hold original participant: " +:+ message)).

Definition createConsultationCall (fromNumber consultNumber consultUrl : string)
    : M string :=
  try_catch
    (let* newCall := dial fromNumber consultNumber consultUrl in
     ret (callSid newCall))
    (fun message => throw ("Failed to create consultation call: " +:+ message)).

Definition addConsultationCallToConference
    (conferenceSid consultCallSid lamlBinUrl : string) : M unit :=
  try_catch
    (let* _ := addParticipantToConference consultCallSid lamlBinUrl in ret tt)
    (fun message => throw ("Failed to add consultation call: " +:+ message)).

Definition unholdOriginalParticipant (conferenceSid callSid : string) : M unit :=
  try_catch
    (updateParticipant conferenceSid callSid false)
    (fun message => throw ("Failed to unhold original participant: " +:+ message)).

(* ------------------------------------------------------------------- *)
(** *** The controller *)

Definition LAML_BIN_URL_FOR_CONFERENCE : string := "https://your-laml-bin.com/whatever".

(** The four awaited steps inside the controller's [try]. *)
Definition transferSteps (conferenceSid originalCallSid consultFrom consultTo consultUrl : string)
    : M Response :=
  let* _ := holdOriginalParticipant conferenceSid originalCallSid in
  let* consultCallSid := createConsultationCall consultFrom consultTo consultUrl in
  let* _ := addConsultationCallToConference conferenceSid consultCallSid
              LAML_BIN_URL_FOR_CONFERENCE in
  let* _ := unholdOriginalParticipant conferenceSid originalCallSid in
  ret {| status := 200;
         json := ("message",
                  "Attended transfer complete (original unheld, consult call bridged)") |}.

(** [POST /call/transfer/attended]. *)
Definition attendedTransfer (body : TransferBody) : M Response :=
  try_catch
    (if negb (Js.truthy (conferenceSid body)) || negb (Js.truthy (originalCallSid body))
        || negb (Js.truthy (consultFrom body)) || negb (Js.truthy (consultTo body))
        || negb (Js.truthy (consultUrl body))
     then
       ret {| status := 400;
              json := ("error",
                       "conferenceSid, originalCallSid, consultFrom, consultTo, consultUrl are required") |}
     else
       transferSteps (default "" (conferenceSid body)) (default "" (originalCallSid body))
         (default "" (consultFrom body)) (default "" (consultTo body))
         (default "" (consultUrl body)))
    (fun message => ret {| status := 500; json := ("error", message) |}).

End Service.

(* ===================================================================== *)
(** ** What changed between two worlds *)
(* ===================================================================== *)

(** The messages, provider requests and directory queries that a run from
    [w] to [w'] added. *)
Definition new_emitted (w w' : World) : list Message :=
  drop (length (emitted w)) (emitted w').

Definition new_requests (w w' : World) : list Request :=
  drop (length (requests w)) (requests w').

Definition new_lookups (w w' : World) : list Lookup :=
  drop (length (lookups w)) (lookups w').

(** Running [m] from [w]. *)
Definition result_of {A} (m : M A) (w : World) : Result A := fst (m w).
Definition world_after {A} (m : M A) (w : World) : World := snd (m w).

(** An upsert applied at time [t1], then once more at time [t2]. *)
Definition twice (m : M (option Sql.row)) (t2 : Z) (w : World) : World :=
  world_after m (with_clock t2 (world_after m w)).

(* ===================================================================== *)
(** ** The rows the upserts leave *)
(* ===================================================================== *)

Section Rows.

Import Sql.

(** The row [logCallStatus] leaves under [callSid], given the row [old]
    that was there. *)
Definition logged (now : Z) (callSid callStatus direction from to : string)
    (callDuration : option Js.number)
    (recordingUrl participantSid conferenceSid : option string)
    (old : option row) : row :=
  match old with
  | None =>
      Row (VText callSid) (VText callStatus) (VText direction) (VText from)
        (VText to) (number_or_null callDuration) (or_null recordingUrl)
        (or_null participantSid) (or_null conferenceSid) (VTime now)
  | Some o =>
      Row (r_call_sid o) (VText callStatus) (r_direction o) (r_from_number o)
        (r_to_number o) (number_or_null callDuration)
        (if Js.truthy recordingUrl then or_null recordingUrl else r_recording_url o)
        (or_null participantSid) (or_null conferenceSid) (VTime now)
  end.

(** The row [callStatusUpdate] leaves under [sid]. *)
Definition updated (now : Z) (sid : string) (data : Payload) (old : option row) : row :=
  match old with
  | None =>
      Row (VText sid) (of_string (CallStatus data)) (of_string (Direction data))
        (of_string (From data)) (of_string (To data))
        (parsed_duration (CallDuration data)) (of_string (RecordingUrl data))
        VNull VNull (timestamp_or_now (Timestamp data) now)
  | Some o =>
      Row (r_call_sid o) (of_string (CallStatus data)) (r_direction o)
        (r_from_number o) (r_to_number o)
        (parsed_duration (CallDuration data)) (of_string (RecordingUrl data))
        (r_participant_sid o) (r_conference_sid o)
        (timestamp_or_now (Timestamp data) now)
  end.

End Rows.

(* ===================================================================== *)
(** ** Vocabulary of the statements *)
(* ===================================================================== *)

(** The payload with its [CallStatus] field replaced. *)
Definition with_CallStatus (cs : option string) (p : Payload) : Payload :=
  {| CallSid := CallSid p; ConferenceSid := ConferenceSid p; From := From p;
     To := To p; Timestamp := Timestamp p; CallStatus := cs;
     Direction := Direction p; StatusCallbackEvent := StatusCallbackEvent p;
     ReasonConferenceEnded := ReasonConferenceEnded p;
     CallSidEndingConference := CallSidEndingConference p;
     CallDuration := CallDuration p; RecordingUrl := RecordingUrl p;
     participantSid := participantSid p |}.

(** The message a join event sends to the assigned user. *)
Definition user_notification (input : Payload) (c : CallInstance) (u : DidNumber)
    (lead : option Lead) : Message :=
  {| channel := "user-notification-" +:+ Js.template (assigned_user u);
     payload := [("conferenceSid", FString (ConferenceSid input));
                 ("callSid", FString (CallSid input));
                 ("from", FString (Some (ci_from c)));
                 ("to", FString (Some (default "" (To input))));
                 ("leadData", FLead lead)] |}.

Definition outbound_call_status (c : CallInstance) : Message :=
  {| channel := "outbound-call-status";
     payload := [("callSid", FString (Some (ci_sid c)));
                 ("status", FString (Some (ci_status c)));
                 ("from", FString (Some (ci_from c)));
                 ("to", FString (Some (ci_to c)))] |}.

Definition conference_end (input : Payload) : Message :=
  {| channel := "conference-end";
     payload := [("conferenceSid", FString (ConferenceSid input));
                 ("reason", FString (ReasonConferenceEnded input));
                 ("callSidEndingConference",
                  FString (CallSidEndingConference input))] |}.

(** The channels a status update is routed to. *)
Definition status_channel (ch : string) : Prop :=
  (exists user, ch = "user-call-status-" +:+ user)
  \/ ch = "call-status-update".

(** The routing of the specification, in its own words (sections 3, 4.2
    and 4.4), to compare the handler with: the definitions above and in
    the service are the code's, these are the document's. *)
Module RoutingSpec.

(** Section 3: a tagged union over three variants. *)
Inductive RoutingTarget : Type :=
| AssignedUser (username : string)
| RingGroup (groupName : string)
| Unassigned.

(** The two kinds of event that are routed. *)
Inductive EventKind : Type :=
| Join
| StatusUpdate.

(** Section 4.2, step 2: the row is found and its status equals "assigned"
    (case-insensitive). *)
Definition resolves_to_user (d : DidNumber) : bool :=
  match did_status d with
  | Some s => String.eqb (Js.toLowerCase s) "assigned"
  | None => false
  end.

(** Section 4.2, steps 2 to 4, for the callee's number: the assigned-user
    lookup, the ring-group lookup only if that did not resolve, and
    [Unassigned] if neither resolves.  Each lookup returns the first row
    of the table with the number.  A row without a user or a group name is
    named as JavaScript prints it.  ([groups] is the ring-group table; the
    variant [RingGroup] hides the name of its row type here.) *)
Definition resolve (assignments : list DidNumber) groups (toNumber : string)
    : RoutingTarget :=
  match List.find (fun d => String.eqb (did_phone_number d) toNumber) assignments with
  | Some d =>
      if resolves_to_user d then AssignedUser (Js.template (assigned_user d))
      else
        match List.find (fun g => String.eqb (rg_phone_number g) toNumber) groups with
        | Some g => RingGroup (Js.template (ring_group g))
        | None => Unassigned
        end
  | None =>
      match List.find (fun g => String.eqb (rg_phone_number g) toNumber) groups with
      | Some g => RingGroup (Js.template (ring_group g))
      | None => Unassigned
      end
  end.

(** Section 4.4: the channel of a target, for a join and for a status
    update; status updates for ring-group-owned numbers fall back to the
    generic channel. *)
Definition channel_of (kind : EventKind) (target : RoutingTarget) : string :=
  match kind, target with
  | Join, AssignedUser username => "user-notification-" +:+ username
  | StatusUpdate, AssignedUser username => "user-call-status-" +:+ username
  | Join, RingGroup _ => "ring-group-notification"
  | StatusUpdate, RingGroup _ => "call-status-update"
  | Join, Unassigned => "incoming-call"
  | StatusUpdate, Unassigned => "call-status-update"
  end.

End RoutingSpec.

(** The validation of the controller passes. *)
Definition complete (body : TransferBody) : bool :=
  Js.truthy (conferenceSid body) && Js.truthy (originalCallSid body)
  && Js.truthy (consultFrom body) && Js.truthy (consultTo body)
  && Js.truthy (consultUrl body).

(** The original participant of a request, as a key of the hold flags. *)
Definition original (body : TransferBody) : string * string :=
  (default "" (conferenceSid body), default "" (originalCallSid body)).

(* ===================================================================== *)
(** ** Concrete scenarios *)
(* ===================================================================== *)

Definition caller_leg : CallInstance :=
  {| ci_sid := "CA1"; ci_status := "in-progress";
     ci_from := "+15551112222"; ci_to := "+15553334444" |}.

Definition consult_leg : CallInstance :=
  {| ci_sid := "CA2"; ci_status := "queued";
     ci_from := "+15553334444"; ci_to := "+15557778888" |}.

Definition jdoe : DidNumber :=
  {| did_phone_number := "+15553334444"; did_status := Some "Assigned";
     assigned_user := Some "jdoe" |}.

Definition sales : RingGroup :=
  {| rg_phone_number := "+15553334444"; ring_group := Some "sales";
     display_name := Some "Sales" |}.

(** Everything reachable; the callee's number is both assigned to jdoe and
    in the sales ring group. *)
Definition office : Env :=
  {| calls_fetch := fun _ => Some caller_leg;
     calls_create := fun _ _ _ => Some consult_leg;
     calls_update := fun _ _ => Some consult_leg;
     participant_update := fun _ _ _ => true;
     call_logs_up := true;
     did_numbers := [jdoe]; did_numbers_up := true;
     ring_groups := [sales]; ring_groups_up := true;
     combined_leads := []; combined_leads_up := true |}.

(** The same, with a provider that refuses to place new calls. *)
Definition office_no_dial : Env :=
  {| calls_fetch := fun _ => Some caller_leg;
     calls_create := fun _ _ _ => None;
     calls_update := fun _ _ => Some consult_leg;
     participant_update := fun _ _ _ => true;
     call_logs_up := true;
     did_numbers := [jdoe]; did_numbers_up := true;
     ring_groups := [sales]; ring_groups_up := true;
     combined_leads := []; combined_leads_up := true |}.

(** The same as [office], with [did_numbers] unreachable. *)
Definition office_no_directory : Env :=
  {| calls_fetch := fun _ => Some caller_leg;
     calls_create := fun _ _ _ => Some consult_leg;
     calls_update := fun _ _ => Some consult_leg;
     participant_update := fun _ _ _ => true;
     call_logs_up := true;
     did_numbers := [jdoe]; did_numbers_up := false;
     ring_groups := [sales]; ring_groups_up := true;
     combined_leads := []; combined_leads_up := true |}.

(** The same as [office], with no number assigned and [ring_groups]
    unreachable. *)
Definition office_no_ring_groups : Env :=
  {| calls_fetch := fun _ => Some caller_leg;
     calls_create := fun _ _ _ => Some consult_leg;
     calls_update := fun _ _ => Some consult_leg;
     participant_update := fun _ _ _ => true;
     call_logs_up := true;
     did_numbers := []; did_numbers_up := true;
     ring_groups := [sales]; ring_groups_up := false;
     combined_leads := []; combined_leads_up := true |}.

Definition quiet : World :=
  {| clock := 1; call_logs := ∅; on_hold := ∅;
     emitted := []; requests := []; lookups := [] |}.

(** A webhook body with the given event, status and callee. *)
Definition webhook (event callStatus to : option string) : Payload :=
  {| CallSid := Some "CA1"; ConferenceSid := Some "CF1";
     From := Some "+15551112222"; To := to; Timestamp := None;
     CallStatus := callStatus; Direction := None;
     StatusCallbackEvent := event; ReasonConferenceEnded := None;
     CallSidEndingConference := None; CallDuration := None;
     RecordingUrl := None; participantSid := None |}.

Definition transfer_request : TransferBody :=
  {| conferenceSid := Some "CF1"; originalCallSid := Some "CA1";
     consultFrom := Some "+15553334444"; consultTo := Some "+15557778888";
     consultUrl := Some "https://example.com/consult.xml" |}.

(** The world after the call CA1 was logged with a recording. *)
Definition recorded : World :=
  world_after
    (logCallStatus office "CA1" "in-progress" "inbound" "+15551112222"
       "+15553334444" (Some (Js.Num 42)) (Some "https://files.example/CA1.wav")
       None None)
    quiet.

(* ===================================================================== *)
(** ** Further messages of the notification handler *)
(* ===================================================================== *)

(** The messages of the other branches of [incomingCallNotification]. *)
Definition participant_leave (input : Payload) : Message :=
  {| channel := "participant-leave";
     payload := [("conferenceSid", FString (ConferenceSid input));
                 ("callSid", FString (CallSid input));
                 ("from", FString (From input));
                 ("to", FString (To input))] |}.

Definition ring_group_notification (input : Payload) (c : CallInstance)
    (g : RingGroup) (lead : option Lead) : Message :=
  {| channel := "ring-group-notification";
     payload := [("conferenceSid", FString (ConferenceSid input));
                 ("callSid", FString (CallSid input));
                 ("from", FString (Some (ci_from c)));
                 ("to", FString (Some (default "" (To input))));
                 ("source", FString (display_name g));
                 ("leadData", FLead lead)] |}.

Definition incoming_call (input : Payload) (c : CallInstance)
    (lead : option Lead) : Message :=
  {| channel := "incoming-call";
     payload := [("conferenceSid", FString (ConferenceSid input));
                 ("callSid", FString (CallSid input));
                 ("from", FString (Some (ci_from c)));
                 ("leadData", FLead lead)] |}.

(** Whether the row found for a number makes the join branch route to its
    user; [None] when reading the status throws. *)
Definition resolves (user : option DidNumber) : option bool :=
  match user with
  | None => Some false
  | Some u =>
      match did_status u with
      | Some s => Some (String.eqb (Js.toLowerCase s) "assigned")
      | None => None
      end
  end.

(* ===================================================================== *)
(** ** The notification handler before the refactoring *)
(* ===================================================================== *)

(** The service before the refactoring, where it differs from the slim one. *)
Module Original.

Section Service.

Variable env : Env.

Import Sql.

(** [logCallStatus] of the original service: it returns nothing and rethrows
    the error it caught. *)
Definition logCallStatus (callSid callStatus direction from to : string)
    (callDuration : option Js.number)
    (recordingUrl participantSid conferenceSid : option string) : M unit :=
  try_catch
    (let queryText := logCallStatus_text recordingUrl in
     let values :=
       [VText callSid; VText callStatus; VText direction; VText from; VText to;
        number_or_null callDuration; or_null recordingUrl;
        or_null participantSid; or_null conferenceSid] in
     let* _ := query env queryText values in
     emit "outbound-call-status"
       [("callSid", FString (Some callSid));
        ("status", FString (Some callStatus));
        ("from", FString (Some from));
        ("to", FString (Some to))])
    (fun error => throw error).

(** [user && user?.status?.toLowerCase() === "assigned"]: a null [status]
    compares unequal. *)
Definition assigned (user : option DidNumber) : bool :=
  match user with
  | None => false
  | Some u =>
      match did_status u with
      | Some s => String.eqb (Js.toLowerCase s) "assigned"
      | None => false
      end
  end.

Definition participantJoin (input : Payload) (to : string) : M unit :=
  let* participantResponse := fetchCall env (CallSid input) in
  let* _ := logCallStatus (ci_sid participantResponse) (ci_status participantResponse)
              "inbound" (ci_from participantResponse) (ci_to participantResponse)
              None None None (ConferenceSid input) in
  let* existingLead := findLeadByPhoneNumber env (ci_from participantResponse) in
  let* user := findUserByPhoneNumber env (ci_to participantResponse) in
  if assigned user then
    emit ("user-notification-" +:+ Js.template (user ≫= assigned_user))
      [("conferenceSid", FString (ConferenceSid input));
       ("callSid", FString (CallSid input));
       ("from", FString (Some (ci_from participantResponse)));
       ("to", FString (Some to));
       ("leadData", FLead existingLead)]
  else
    let* ringGroup := findRingGroupByPhoneNumber env (ci_to participantResponse) in
    match ringGroup with
    | Some g =>
        emit "ring-group-notification"
          [("conferenceSid", FString (ConferenceSid input));
           ("callSid", FString (CallSid input));
           ("from", FString (Some (ci_from participantResponse)));
           ("to", FString (Some to));
           ("source", FString (display_name g));
           ("leadData", FLead existingLead)]
    | None =>
        emit "incoming-call"
          [("conferenceSid", FString (ConferenceSid input));
           ("callSid", FString (CallSid input));
           ("from", FString (Some (ci_from participantResponse)));
           ("leadData", FLead existingLead)]
    end.

(** [incomingCallNotification] of the original service; its status branch
    is the one of the slim service. *)
Definition incomingCallNotification (input : Payload) : M unit :=
  try_catch
    (let to := default "" (To input) in
     if Js.truthy (StatusCallbackEvent input) then
       let event := default "" (StatusCallbackEvent input) in
       if String.eqb event "participant-join" then participantJoin input to
       else if String.eqb event "participant-leave" then
         emit "participant-leave"
           [("conferenceSid", FString (ConferenceSid input));
            ("callSid", FString (CallSid input));
            ("from", FString (From input));
            ("to", FString (To input))]
       else if String.eqb event "conference-end" then
         emit "conference-end"
           [("conferenceSid", FString (ConferenceSid input));
            ("reason", FString (ReasonConferenceEnded input));
            ("callSidEndingConference", FString (CallSidEndingConference input))]
       else ret tt
     else if Js.truthy (CallStatus input) then
       callStatus env input to (default "" (CallStatus input))
     else ret tt)
    (fun _ => throw "Error receiving webhook data").

End Service.

End Original.

(* ===================================================================== *)
(** ** The recording status callback *)
(* ===================================================================== *)

(** What a handler that also uses [res.send], or that passes the service's
    empty result to [res.json], answers. *)
Inductive Reply : Type :=
| Json (code : nat) (key text : string)
| Send (code : nat) (text : string)
| JsonUndefined (code : nat).

Module Recording.

(** The body of a recording status callback. *)
Record Body : Type := {
  CallSid : option string;
  ConferenceSid : option string;
  RecordingSid : option string;
  RecordingUrl : option string;
  RecordingDuration : option string;
}.

Section Service.

Variable env : Env.

Import Sql.

(** SQL [=] between a column and a parameter: never true on a null. *)
Definition equal (a b : value) : bool :=
  match a, b with
  | VText s, VText t => String.eqb s t
  | VNum x, VNum y => (x =? y)%Z
  | VTime x, VTime y => (x =? y)%Z
  | _, _ => false
  end.

(** [WHERE call_sid = sid OR conference_sid = sid]. *)
Definition selects (sid : value) (r : row) : bool :=
  equal (r_call_sid r) sid || equal (r_conference_sid r) sid.

(** [UPDATE public.call_logs SET recording_url = $1, call_duration = $2
     WHERE call_sid = $3 OR conference_sid = $3]. *)
Definition update_sets : list assignment :=
  [Assign recording_url (Param 1) true; Assign call_duration (Param 2) false].

(** Running that statement: the rows the [WHERE] clause selects are
    assigned, the others are kept, and [rowCount] counts the former. *)
Definition run_update (now : Z) (params : list value) (t : gmap string row)
    : option (outcome * gmap string row) :=
  if well_formed (Update update_sets (Param 3)) (length params) then
    let sid := eval now params (Param 3) in
    Some (Outcome []
            (length (List.filter (fun kr => selects sid (snd kr)) (map_to_list t))),
          (fun r => if selects sid r then assign_all now params update_sets r else r)
            <$> t)
  else None.

Definition query_update (values : list value) : M outcome :=
  fun w =>
    if call_logs_up env then
      match run_update (clock w) values (call_logs w) with
      | Some (o, t) => (Ok o, with_call_logs t w)
      | None => (Throw rejected, w)
      end
    else (Throw unreachable, w).

(** [CallSid || ConferenceSid]. *)
Definition sidUsedForLookup (body : Body) : option string :=
  if Js.truthy (CallSid body) then CallSid body else ConferenceSid body.

(** [recordingStatusCallback] of the original service. *)
Definition recordingStatusCallback (body : Body) : M Reply :=
  try_catch
    (if negb (Js.truthy (CallSid body)) && negb (Js.truthy (ConferenceSid body)) then
       ret (Json 400 "error" "Missing callSid or conferenceSid")
     else if negb (Js.truthy (RecordingUrl body)) then
       ret (Json 400 "error" "Missing RecordingUrl")
     else
       let parsedDuration := parsed_duration (RecordingDuration body) in
       let values :=
         [of_string (RecordingUrl body); parsedDuration;
          of_string (sidUsedForLookup body)] in
       let* result := query_update values in
       if (rowCount result =? 0)%nat then
         ret (Json 404 "error" "No matching record found")
       else ret (Send 200 "OK"))
    (fun _ => ret (Send 500 "Failed to update call logs")).

(** [StatusService.recordingStatusCallback]: the refactored handler throws
    where the original answered. *)
Definition statusRecordingStatusCallback (data : Body) : M unit :=
  if negb (Js.truthy (CallSid data)) && negb (Js.truthy (ConferenceSid data)) then
    throw "Missing callSid or conferenceSid"
  else if negb (Js.truthy (RecordingUrl data)) then
    throw "Missing RecordingUrl"
  else
    let parsedDuration := parsed_duration (RecordingDuration data) in
    let values :=
      [of_string (RecordingUrl data); parsedDuration;
       of_string (sidUsedForLookup data)] in
    let* result := query_update values in
    if (rowCount result =? 0)%nat then throw "No matching record found"
    else ret tt.

(** [StatusController.recordingStatusCallback]. *)
Definition statusControllerRecordingStatusCallback (body : Body) : M Reply :=
  try_catch
    (let* _ := statusRecordingStatusCallback body in
     ret (Send 200 "OK"))
    (fun _ => ret (Send 500 "Failed to update call logs")).

End Service.

End Recording.

(** The rows a recording callback for [sid] changes: they get the URL and
    the duration, and keep every other column. *)
Definition recorded_row (url duration : Sql.value) (sid : Sql.value) (r : Sql.row)
    : Sql.row :=
  if Recording.selects sid r
  then Sql.set Sql.call_duration duration (Sql.set Sql.recording_url url r)
  else r.

(** The body with its [ConferenceSid] replaced. *)
Definition with_ConferenceSid (cf : option string) (b : Recording.Body) : Recording.Body :=
  {| Recording.CallSid := Recording.CallSid b;
     Recording.ConferenceSid := cf;
     Recording.RecordingSid := Recording.RecordingSid b;
     Recording.RecordingUrl := Recording.RecordingUrl b;
     Recording.RecordingDuration := Recording.RecordingDuration b |}.

(** A recording callback that names only the conference. *)
Definition conference_recording (cf url : string) : Recording.Body :=
  {| Recording.CallSid := None;
     Recording.ConferenceSid := Some cf;
     Recording.RecordingSid := None;
     Recording.RecordingUrl := Some url;
     Recording.RecordingDuration := None |}.

(* ===================================================================== *)
(** ** Buying numbers and assigning them *)
(* ===================================================================== *)

(** The environment with another [did_numbers] table. *)
Definition with_did_numbers (t : list DidNumber) (env : Env) : Env :=
  {| calls_fetch := calls_fetch env;
     calls_create := calls_create env;
     calls_update := calls_update env;
     participant_update := participant_update env;
     call_logs_up := call_logs_up env;
     did_numbers := t;
     did_numbers_up := did_numbers_up env;
     ring_groups := ring_groups env;
     ring_groups_up := ring_groups_up env;
     combined_leads := combined_leads env;
     combined_leads_up := combined_leads_up env |}.

(** Buying numbers and assigning them to users: the part of the original
    service that writes [public.did_numbers]. *)
Module Did.

(** What the number endpoints of the provider answer, and how the database
    orders [phone_number]. *)
Record Numbers : Type := {
  sorts_before : string -> string -> bool;
  availablePhoneNumbers : Js.number -> Z -> Result (list string);
  incomingPhoneNumbers_create : string -> Result string;
  incomingPhoneNumbers_list : string -> Result (list string);
  incomingPhoneNumbers_update : string -> Result unit;
}.

Inductive NumberRequest : Type :=
| ListAvailable (areaCode : Js.number) (limit : Z)
| Create (phoneNumber : string)
| ListIncoming (phoneNumber : string)
| Update (sid : string).

(** The table and the requests sent so far. *)
Record Directory : Type := {
  rows : list DidNumber;
  sent : list NumberRequest;
}.

Definition D (A : Type) : Type := Directory -> Result A * Directory.

Definition ret {A} (a : A) : D A := fun d => (Ok a, d).

Definition throw {A} (message : string) : D A := fun d => (Throw message, d).

Definition bind {A B} (m : D A) (k : A -> D B) : D B :=
  fun d =>
    match m d with
    | (Ok a, d') => k a d'
    | (Throw e, d') => (Throw e, d')
    end.

Definition try_catch {A} (m : D A) (h : string -> D A) : D A :=
  fun d =>
    match m d with
    | (Ok a, d') => (Ok a, d')
    | (Throw e, d') => h e d'
    end.

Notation "'let+' x ':=' m 'in' k" := (bind m (fun x => k))
  (at level 10, x pattern, m at level 200, k at level 200).

(** The double-quote character. *)
Definition quote : string := String (ascii_of_nat 34) EmptyString.

Section Service.

Variable env : Env.
Variable api : Numbers.

(** A request to the provider: it is recorded, then answered. *)
Definition ask {A} (request : NumberRequest) (answer : Result A) : D A :=
  fun d =>
    (answer, {| rows := rows d; sent := sent d ++ [request] |}).

(** A statement on [did_numbers]: it runs when the database is reachable. *)
Definition directory {A} (f : list DidNumber -> A * list DidNumber) : D A :=
  fun d =>
    if did_numbers_up env then
      let '(a, t) := f (rows d) in (Ok a, {| rows := t; sent := sent d |})
    else (Throw unreachable, d).

(** [WHERE status = 'Free']. *)
Definition free (n : DidNumber) : bool :=
  match did_status n with
  | Some s => String.eqb s "Free"
  | None => false
  end.

(** The first of a list in the order of the database. *)
Fixpoint least (l : list string) : option string :=
  match l with
  | [] => None
  | x :: rest =>
      match least rest with
      | None => Some x
      | Some y => Some (if sorts_before api x y then x else y)
      end
  end.

(** [SELECT phone_number FROM public.did_numbers WHERE status = 'Free'
     ORDER BY phone_number ASC LIMIT 1]. *)
Definition selectFree (t : list DidNumber) : option string :=
  least (map did_phone_number (List.filter free t)).

(** [UPDATE public.did_numbers SET status = 'Assigned', assigned_user = $1
     WHERE phone_number = $2]. *)
Definition assign (username phoneNumber : string) (n : DidNumber) : DidNumber :=
  if String.eqb (did_phone_number n) phoneNumber
  then {| did_phone_number := did_phone_number n;
          did_status := Some "Assigned";
          assigned_user := Some username |}
  else n.

(** [INSERT INTO public.did_numbers (phone_number, status, assigned_user)
     VALUES ($1, 'Free', null)]. *)
Definition freeRow (phoneNumber : string) : DidNumber :=
  {| did_phone_number := phoneNumber; did_status := Some "Free";
     assigned_user := None |}.

Definition getDidNumbersByUser (username : string) : D (list DidNumber) :=
  try_catch
    (directory (fun t =>
       (List.filter
          (fun n => match assigned_user n with
                    | Some u => String.eqb u username
                    | None => false
                    end) t, t)))
    (fun _ => throw "Failed to fetch DID numbers by user").

(** The body of the [for] loop of [buyNumbers], for each candidate. *)
Fixpoint purchaseAll (candidates : list string) : D unit :=
  match candidates with
  | [] => ret tt
  | candidate :: rest =>
      let+ purchased := ask (Create candidate) (incomingPhoneNumbers_create api candidate) in
      let+ _ := directory (fun t => (tt, t ++ [freeRow purchased])) in
      purchaseAll rest
  end.

Definition buyNumbers (areaCode : string) (quantity : Z) : D unit :=
  try_catch
    (match Js.parseInt areaCode with
     | Js.NaN =>
         throw ("Invalid areaCode: must be numeric. Got " +:+ quote +:+ areaCode +:+ quote)
     | areaCodeAsNumber =>
         let+ availableNumbers :=
           ask (ListAvailable areaCodeAsNumber quantity)
               (availablePhoneNumbers api areaCodeAsNumber quantity) in
         match availableNumbers with
         | [] => throw ("No available phone numbers found for area code " +:+ areaCode)
         | _ => purchaseAll availableNumbers
         end
     end)
    (fun message => throw message).

Definition configureNumber (phoneNumber : string) : D unit :=
  try_catch
    (let+ incomingNumbers :=
       ask (ListIncoming phoneNumber) (incomingPhoneNumbers_list api phoneNumber) in
     match incomingNumbers with
     | [] => throw ("Incoming phone number " +:+ phoneNumber +:+ " not found")
     | sid :: _ => ask (Update sid) (incomingPhoneNumbers_update api sid)
     end)
    (fun message => throw message).

Definition assignDidToUser (username : string) : D string :=
  try_catch
    (let+ selectResult := directory (fun t => (selectFree t, t)) in
     match selectResult with
     | None => throw "No 'Free' DIDs available to assign."
     | Some phoneNumber =>
         let+ _ := directory (fun t => (tt, map (assign username phoneNumber) t)) in
         let+ _ := configureNumber phoneNumber in
         ret phoneNumber
     end)
    (fun message => throw message).

End Service.

End Did.

(* ===================================================================== *)
(** ** The webhook endpoint of the controller *)
(* ===================================================================== *)

Module Controller.

Section Service.

Variable env : Env.

(** The object the controller builds for the service: the fields it
    destructures from the body (among them [CallSid], [From], [To],
    [Timestamp], [CallStatus], [Direction], [StatusCallbackEvent] and
    [ConferenceSid]); every other field is absent from it. *)
Definition forwarded (body : Payload) : Payload :=
  {| CallSid := CallSid body; ConferenceSid := ConferenceSid body;
     From := From body; To := To body; Timestamp := Timestamp body;
     CallStatus := CallStatus body; Direction := Direction body;
     StatusCallbackEvent := StatusCallbackEvent body;
     ReasonConferenceEnded := None; CallSidEndingConference := None;
     CallDuration := None; RecordingUrl := None; participantSid := None |}.

(** [SignalWireController.incomingCallNotification]; the service behind
    this controller is the original one. *)
Definition incomingCallNotification (body : Payload) : M Reply :=
  try_catch
    (let* result := Original.incomingCallNotification env (forwarded body) in
     ret (JsonUndefined 200))
    (fun _ =>
       ret (Json 500 "error" "Failed to process incoming webhook from signalwire")).

End Service.

End Controller.

(** The payload without the two details of a conference end. *)
Definition without_end_details (p : Payload) : Payload :=
  {| CallSid := CallSid p; ConferenceSid := ConferenceSid p; From := From p;
     To := To p; Timestamp := Timestamp p; CallStatus := CallStatus p;
     Direction := Direction p; StatusCallbackEvent := StatusCallbackEvent p;
     ReasonConferenceEnded := None; CallSidEndingConference := None;
     CallDuration := CallDuration p; RecordingUrl := RecordingUrl p;
     participantSid := participantSid p |}.

(* ===================================================================== *)
(** ** Further scenarios *)
(* ===================================================================== *)

(** A join event for the call CA1 of the conference CF1. *)
Definition join : Payload :=
  webhook (Some "participant-join") None (Some "+15553334444").

(** A row of [did_numbers] whose status was never set. *)
Definition unprovisioned : DidNumber :=
  {| did_phone_number := "+15553334444"; did_status := None;
     assigned_user := None |}.

(** The recording callback of the call CA1. *)
Definition call_recording : Recording.Body :=
  {| Recording.CallSid := Some "CA1";
     Recording.ConferenceSid := None;
     Recording.RecordingSid := Some "RE1";
     Recording.RecordingUrl := Some "https://files.example/CA1-full.wav";
     Recording.RecordingDuration := Some "61" |}.

(** A provider that lists three numbers and sells only the first; every
    number it is asked about is configured under the sid PN1. *)
Definition carrier : Did.Numbers :=
  {| Did.sorts_before :=
       fun a b => match String.compare a b with Gt => false | _ => true end;
     Did.availablePhoneNumbers :=
       fun _ _ => Ok ["+15559990001"; "+15559990002"; "+15559990003"];
     Did.incomingPhoneNumbers_create :=
       fun phoneNumber =>
         if String.eqb phoneNumber "+15559990001" then Ok phoneNumber
         else Throw "Number is no longer available";
     Did.incomingPhoneNumbers_list := fun _ => Ok ["PN1"];
     Did.incomingPhoneNumbers_update := fun _ => Ok tt |}.

(** The same provider, when the account does not know the number. *)
Definition carrier_unconfigured : Did.Numbers :=
  {| Did.sorts_before := Did.sorts_before carrier;
     Did.availablePhoneNumbers := Did.availablePhoneNumbers carrier;
     Did.incomingPhoneNumbers_create := Did.incomingPhoneNumbers_create carrier;
     Did.incomingPhoneNumbers_list := fun _ => Ok [];
     Did.incomingPhoneNumbers_update := fun _ => Ok tt |}.

(** A directory with two free numbers, the callee's and another one. *)
Definition stock : Did.Directory :=
  {| Did.rows := [Did.freeRow "+15557770000"; Did.freeRow "+15553334444"];
     Did.sent := [] |}.

(** A directory whose only number is taken. *)
Definition taken : Did.Directory :=
  {| Did.rows := [jdoe]; Did.sent := [] |}.

(** The row of the call CA1 in [recorded]. *)
Definition logged_CA1 : Sql.row :=
  Sql.Row (Sql.VText "CA1") (Sql.VText "in-progress") (Sql.VText "inbound")
    (Sql.VText "+15551112222") (Sql.VText "+15553334444") (Sql.VNum 42)
    (Sql.VText "https://files.example/CA1.wav") Sql.VNull Sql.VNull (Sql.VTime 1).

(** A status webhook of the consultation call CA2. *)
Definition consult_status : Payload :=
  {| CallSid := Some "CA2"; ConferenceSid := None;
     From := Some "+15553334444"; To := Some "+15557778888"; Timestamp := None;
     CallStatus := Some "ringing"; Direction := Some "outbound";
     StatusCallbackEvent := None; ReasonConferenceEnded := None;
     CallSidEndingConference := None; CallDuration := None;
     RecordingUrl := None; participantSid := None |}.

(** A transfer request without the URL of the consultation call. *)
Definition unfinished_request : TransferBody :=
  {| conferenceSid := Some "CF1"; originalCallSid := Some "CA1";
     consultFrom := Some "+15553334444"; consultTo := Some "+15557778888";
     consultUrl := None |}.

(** The same as [office], with [call_logs] unreachable. *)
Definition office_no_call_log : Env :=
  {| calls_fetch := fun _ => Some caller_leg;
     calls_create := fun _ _ _ => Some consult_leg;
     calls_update := fun _ _ => Some consult_leg;
     participant_update := fun _ _ _ => true;
     call_logs_up := false;
     did_numbers := [jdoe]; did_numbers_up := true;
     ring_groups := [sales]; ring_groups_up := true;
     combined_leads := []; combined_leads_up := true |}.

Ltac unfold_monad :=
  unfold result_of, world_after, bind, try_catch, ret, throw, gets, modify in *.

(* ===================================================================== *)
(** ** The call-log upserts *)
(* ===================================================================== *)

Section Upserts.

Variable env : Env.

Import Sql.

Lemma logCallStatus_up callSid callStatus direction from to callDuration
    recordingUrl participantSid conferenceSid w :
  call_logs_up env = true ->
  logCallStatus env callSid callStatus direction from to callDuration
    recordingUrl participantSid conferenceSid w
  = (Ok None,
     with_emitted
       (emitted w ++
        [{| channel := "outbound-call-status";
            payload := [("callSid", FString (Some callSid));
                        ("status", FString (Some callStatus));
                        ("from", FString (Some from));
                        ("to", FString (Some to))] |}])
       (with_call_logs
          (<[callSid :=
               logged (clock w) callSid callStatus direction from to callDuration
                 recordingUrl participantSid conferenceSid (call_logs w !! callSid)]>
             (call_logs w)) w)).
Proof.
  intros Hup.
  unfold logCallStatus, query, emit, logCallStatus_text.
  unfold_monad. rewrite Hup.
  unfold run.
  destruct (Js.truthy recordingUrl) eqn:Hrec; cbn;
    destruct (call_logs w !! callSid) as [[]|] eqn:Hold; cbn;
    rewrite ?Hrec; reflexivity.
Qed.

Lemma logCallStatus_down callSid callStatus direction from to callDuration
    recordingUrl participantSid conferenceSid w :
  call_logs_up env = false ->
  logCallStatus env callSid callStatus direction from to callDuration
    recordingUrl participantSid conferenceSid w
  = (Throw "Failed to insert call log into database", w).
Proof.
  intros Hdown.
  unfold logCallStatus, query. unfold_monad. now rewrite Hdown.
Qed.

(** Logging the same arguments again changes nothing but the time stamp. *)
Lemma logged_again now now' callSid callStatus direction from to callDuration
    recordingUrl participantSid conferenceSid old :
  logged now' callSid callStatus direction from to callDuration recordingUrl
    participantSid conferenceSid
    (Some (logged now callSid callStatus direction from to callDuration
             recordingUrl participantSid conferenceSid old))
  = set timestamp (VTime now')
      (logged now callSid callStatus direction from to callDuration
         recordingUrl participantSid conferenceSid old).
Proof.
  destruct old as [[]|]; cbn; destruct (Js.truthy recordingUrl); reflexivity.
Qed.

(** A falsy [recordingUrl] leaves the stored [recording_url] alone. *)
Lemma logCallStatus_keeps_recording_url callSid callStatus direction from to
    callDuration recordingUrl participantSid conferenceSid w old :
  Js.truthy recordingUrl = false ->
  call_logs w !! callSid = Some old ->
  r_recording_url <$>
    (call_logs
       (world_after
          (logCallStatus env callSid callStatus direction from to callDuration
             recordingUrl participantSid conferenceSid) w) !! callSid)
  = Some (r_recording_url old).
Proof.
  intros Hrec Hold. unfold world_after.
  destruct (call_logs_up env) eqn:Hup.
  - rewrite logCallStatus_up by assumption. cbn.
    rewrite lookup_insert_eq, Hold. cbn. now rewrite Hrec.
  - rewrite logCallStatus_down by assumption. cbn. now rewrite Hold.
Qed.

Lemma callStatusUpdate_up data sid w :
  call_logs_up env = true ->
  CallSid data = Some sid ->
  callStatusUpdate env data w
  = (Ok (Some (updated (clock w) sid data (call_logs w !! sid))),
     with_call_logs
       (<[sid := updated (clock w) sid data (call_logs w !! sid)]> (call_logs w)) w).
Proof.
  intros Hup Hsid.
  unfold callStatusUpdate, query, callStatusUpdate_text.
  unfold_monad. rewrite Hup, Hsid.
  unfold run. cbn.
  destruct (call_logs w !! sid) as [[]|] eqn:Hold; reflexivity.
Qed.

Lemma callStatusUpdate_rejected data w :
  call_logs_up env = false \/ CallSid data = None ->
  callStatusUpdate env data w
  = (Throw "Failed to insert call log into database", w).
Proof.
  intros H.
  unfold callStatusUpdate, query, callStatusUpdate_text.
  unfold_monad.
  destruct (call_logs_up env); [|reflexivity].
  destruct H as [H|H]; [discriminate|].
  rewrite H. reflexivity.
Qed.

Lemma updated_again now now' sid data old :
  updated now' sid data (Some (updated now sid data old))
  = set timestamp (timestamp_or_now (Timestamp data) now') (updated now sid data old).
Proof. destruct old as [[]|]; reflexivity. Qed.

End Upserts.

(* ===================================================================== *)
(** ** Applying an upsert twice *)
(* ===================================================================== *)

Section Idempotence.

Variable env : Env.

Import Sql.

Lemma logCallStatus_twice callSid callStatus direction from to callDuration
    recordingUrl participantSid conferenceSid t2 w :
  call_logs
    (twice (logCallStatus env callSid callStatus direction from to callDuration
              recordingUrl participantSid conferenceSid) t2 w)
  = if call_logs_up env
    then alter (set timestamp (VTime t2)) callSid
           (call_logs
              (world_after
                 (logCallStatus env callSid callStatus direction from to
                    callDuration recordingUrl participantSid conferenceSid) w))
    else call_logs
           (world_after
              (logCallStatus env callSid callStatus direction from to
                 callDuration recordingUrl participantSid conferenceSid) w).
Proof.
  unfold twice, world_after.
  destruct (call_logs_up env) eqn:Hup.
  - rewrite (logCallStatus_up env _ _ _ _ _ _ _ _ _ w Hup). cbn [snd].
    rewrite logCallStatus_up by assumption. cbn.
    now rewrite lookup_insert_eq, logged_again, alter_insert_eq, insert_insert_eq.
  - rewrite (logCallStatus_down env _ _ _ _ _ _ _ _ _ w Hup). cbn [snd].
    now rewrite logCallStatus_down by assumption.
Qed.

Lemma callStatusUpdate_twice data t2 w :
  call_logs (twice (callStatusUpdate env data) t2 w)
  = match CallSid data with
    | Some sid =>
        if call_logs_up env
        then alter (set timestamp (timestamp_or_now (Timestamp data) t2)) sid
               (call_logs (world_after (callStatusUpdate env data) w))
        else call_logs (world_after (callStatusUpdate env data) w)
    | None => call_logs (world_after (callStatusUpdate env data) w)
    end.
Proof.
  unfold twice, world_after.
  destruct (CallSid data) as [sid|] eqn:Hsid.
  - destruct (call_logs_up env) eqn:Hup.
    + rewrite (callStatusUpdate_up env data sid w Hup Hsid). cbn [snd].
      rewrite (callStatusUpdate_up env data sid _ Hup Hsid). cbn.
      now rewrite lookup_insert_eq, updated_again, alter_insert_eq, insert_insert_eq.
    + rewrite (callStatusUpdate_rejected env data w) by now left.
      cbn [snd]. now rewrite callStatusUpdate_rejected by now left.
  - rewrite (callStatusUpdate_rejected env data w) by now right.
    cbn [snd]. now rewrite callStatusUpdate_rejected by now right.
Qed.

(** C3 (amended): applying the same payload to the call-log store twice
    leaves the rows that applying it once leaves, and the row of the call
    agrees with the once-applied row in every column but [timestamp]:
    [logCallStatus] stores the time of the latest application, and
    [callStatusUpdate] stores the payload's [Timestamp] when it has one and
    the time of the latest application otherwise. *)
Theorem upsert_twice t2 w :
  (forall callSid callStatus direction from to callDuration recordingUrl
          participantSid conferenceSid,
     call_logs
       (twice (logCallStatus env callSid callStatus direction from to
                 callDuration recordingUrl participantSid conferenceSid) t2 w)
     = if call_logs_up env
       then alter (set timestamp (VTime t2)) callSid
              (call_logs
                 (world_after
                    (logCallStatus env callSid callStatus direction from to
                       callDuration recordingUrl participantSid conferenceSid) w))
       else call_logs
              (world_after
                 (logCallStatus env callSid callStatus direction from to
                    callDuration recordingUrl participantSid conferenceSid) w))
  /\
  (forall data,
     call_logs (twice (callStatusUpdate env data) t2 w)
     = match CallSid data with
       | Some sid =>
           if call_logs_up env
           then alter (set timestamp (timestamp_or_now (Timestamp data) t2)) sid
                  (call_logs (world_after (callStatusUpdate env data) w))
           else call_logs (world_after (callStatusUpdate env data) w)
       | None => call_logs (world_after (callStatusUpdate env data) w)
       end).
Proof.
  split; intros.
  - apply logCallStatus_twice.
  - apply callStatusUpdate_twice.
Qed.

(** With the clock unchanged, and for [callStatusUpdate] also with a
    [Timestamp] in the payload, the second application changes no row. *)
Lemma logCallStatus_twice_same_instant callSid callStatus direction from to
    callDuration recordingUrl participantSid conferenceSid w :
  call_logs
    (twice (logCallStatus env callSid callStatus direction from to callDuration
              recordingUrl participantSid conferenceSid) (clock w) w)
  = call_logs
      (world_after
         (logCallStatus env callSid callStatus direction from to callDuration
            recordingUrl participantSid conferenceSid) w).
Proof.
  rewrite logCallStatus_twice.
  destruct (call_logs_up env) eqn:Hup; [|reflexivity].
  unfold world_after. rewrite logCallStatus_up by assumption. cbn.
  rewrite alter_insert_eq. f_equal.
  destruct (call_logs w !! callSid) as [[]|]; reflexivity.
Qed.

Lemma callStatusUpdate_twice_stamped data t2 w :
  Js.truthy (Timestamp data) = true ->
  call_logs (twice (callStatusUpdate env data) t2 w)
  = call_logs (world_after (callStatusUpdate env data) w).
Proof.
  intros Hts. rewrite callStatusUpdate_twice.
  destruct (CallSid data) as [sid|] eqn:Hsid; [|reflexivity].
  destruct (call_logs_up env) eqn:Hup; [|reflexivity].
  unfold world_after. rewrite (callStatusUpdate_up env data sid w Hup Hsid). cbn.
  rewrite alter_insert_eq. f_equal.
  unfold updated, timestamp_or_now. rewrite Hts.
  destruct (call_logs w !! sid) as [[]|]; reflexivity.
Qed.

End Idempotence.

(* ===================================================================== *)
(** ** One step at a time *)
(* ===================================================================== *)

Section Steps.

Variable env : Env.

Lemma emit_run ch p w :
  emit ch p w = (Ok tt, with_emitted (emitted w ++ [{| channel := ch; payload := p |}]) w).
Proof. reflexivity. Qed.

Lemma fetchCall_run sid w :
  fetchCall env sid w
  = (match calls_fetch env sid with
     | Some c => Ok c
     | None => Throw "provider request failed"
     end,
     with_requests (requests w ++ [CallsFetch sid]) w).
Proof.
  unfold fetchCall. unfold_monad. now destruct (calls_fetch env sid).
Qed.

Lemma findLeadByPhoneNumber_run phone w :
  findLeadByPhoneNumber env phone w
  = (if combined_leads_up env
     then Ok (List.find (fun l => String.eqb (cell_phone l) phone) (combined_leads env))
     else Throw unreachable,
     with_lookups (lookups w ++ [LeadByPhone phone]) w).
Proof.
  unfold findLeadByPhoneNumber. unfold_monad. now destruct (combined_leads_up env).
Qed.

Lemma findUserByPhoneNumber_run phone w :
  findUserByPhoneNumber env phone w
  = (if did_numbers_up env
     then Ok (List.find (fun d => String.eqb (did_phone_number d) phone) (did_numbers env))
     else Throw "Failed to find user by phone number",
     with_lookups (lookups w ++ [UserByPhone phone]) w).
Proof.
  unfold findUserByPhoneNumber. unfold_monad. now destruct (did_numbers_up env).
Qed.

Lemma findRingGroupByPhoneNumber_run phone w :
  findRingGroupByPhoneNumber env phone w
  = (if ring_groups_up env
     then Ok (List.find (fun g => String.eqb (rg_phone_number g) phone) (ring_groups env))
     else Throw unreachable,
     with_lookups (lookups w ++ [RingGroupByPhone phone]) w).
Proof.
  unfold findRingGroupByPhoneNumber. unfold_monad. now destruct (ring_groups_up env).
Qed.

End Steps.

(* ===================================================================== *)
(** ** Classification and routing of webhook events *)
(* ===================================================================== *)

Arguments logCallStatus : simpl never.
Arguments fetchCall : simpl never.
Arguments findLeadByPhoneNumber : simpl never.
Arguments findUserByPhoneNumber : simpl never.
Arguments findRingGroupByPhoneNumber : simpl never.
Arguments emit : simpl never.

(** Runs a handler symbolically: each awaited call is replaced by its
    outcome, and the answers of the environment are split into cases as
    they are needed. *)
Ltac crank :=
  repeat (cbn;
    first
    [ rewrite fetchCall_run
    | rewrite findLeadByPhoneNumber_run
    | rewrite findUserByPhoneNumber_run
    | rewrite findRingGroupByPhoneNumber_run
    | rewrite emit_run
    | rewrite logCallStatus_up by assumption
    | rewrite logCallStatus_down by assumption
    | match goal with
      | |- context [logCallStatus ?e _ _ _ _ _ _ _ _ _ _] =>
          lazymatch goal with
          | H : call_logs_up e = _ |- _ => fail
          | _ => destruct (call_logs_up e) eqn:?
          end
      | |- context [if ?b then _ else _] => destruct b eqn:?
      | |- context [match calls_fetch ?e ?s with _ => _ end] =>
          destruct (calls_fetch e s) eqn:?
      | |- context [match find ?f ?l with _ => _ end] =>
          destruct (find f l) eqn:?
      | |- context [match did_status ?u with _ => _ end] =>
          destruct (did_status u) eqn:?
      end ]).

(** Reduces the lists of new messages and queries to explicit lists. *)
Ltac new_lists :=
  cbn;
  repeat rewrite <- app_assoc;
  repeat rewrite drop_app_length;
  repeat rewrite drop_all;
  cbn.

Section Routing.

Variable env : Env.

Lemma truthy_nonempty s : s <> "" -> Js.truthy (Some s) = true.
Proof.
  intros H. cbn. now destruct (String.eqb_spec s "").
Qed.

(** C7: a payload without [StatusCallbackEvent] whose [CallStatus] is
    ["completed"] is acknowledged without any effect: nothing is emitted on
    any channel, no directory is queried and no error is raised. *)
Theorem completed_status_is_silent input w :
  StatusCallbackEvent input = None ->
  CallStatus input = Some "completed" ->
  incomingCallNotification env input w = (Ok tt, w).
Proof.
  intros Hev Hcs.
  unfold incomingCallNotification, callStatus. unfold_monad.
  now rewrite Hev, Hcs.
Qed.

Lemma classification_ignores_CallStatus input ev cs w :
  StatusCallbackEvent input = Some ev ->
  ev <> "" ->
  incomingCallNotification env (with_CallStatus cs input) w
  = incomingCallNotification env input w.
Proof.
  intros Hev Hne.
  unfold incomingCallNotification.
  replace (StatusCallbackEvent (with_CallStatus cs input))
    with (StatusCallbackEvent input) by reflexivity.
  rewrite Hev, (truthy_nonempty ev Hne).
  reflexivity.
Qed.

Lemma conference_end_run input w :
  StatusCallbackEvent input = Some "conference-end" ->
  incomingCallNotification env input w
  = (Ok tt, with_emitted (emitted w ++ [conference_end input]) w).
Proof.
  intros Hev.
  unfold incomingCallNotification. unfold_monad.
  now rewrite Hev.
Qed.

(** C5 (amended): when [StatusCallbackEvent] is present and not the empty
    string, the handling is decided by it alone: replacing the [CallStatus]
    field by anything changes neither the outcome nor the effects, and
    ["conference-end"] publishes the conference-end message. *)
Theorem event_decides_classification input ev w :
  StatusCallbackEvent input = Some ev ->
  ev <> "" ->
  (forall cs,
     incomingCallNotification env (with_CallStatus cs input) w
     = incomingCallNotification env input w)
  /\ (ev = "conference-end" ->
      forall cs,
        incomingCallNotification env (with_CallStatus cs input) w
        = (Ok tt, with_emitted (emitted w ++ [conference_end input]) w)).
Proof.
  intros Hev Hne. split.
  - intros cs. now apply classification_ignores_CallStatus with ev.
  - intros -> cs.
    rewrite (classification_ignores_CallStatus input _ cs w Hev Hne).
    now apply conference_end_run.
Qed.

Lemma join_assigned_run input c u s w :
  StatusCallbackEvent input = Some "participant-join" ->
  calls_fetch env (CallSid input) = Some c ->
  call_logs_up env = true ->
  combined_leads_up env = true ->
  did_numbers_up env = true ->
  List.find (fun d => String.eqb (did_phone_number d) (ci_to c)) (did_numbers env) = Some u ->
  did_status u = Some s ->
  Js.toLowerCase s = "assigned" ->
  exists w',
    incomingCallNotification env input w = (Ok tt, w')
    /\ lookups w' = lookups w ++ [LeadByPhone (ci_from c); UserByPhone (ci_to c)]
    /\ emitted w'
       = emitted w ++
         [outbound_call_status c;
          user_notification input c u
            (List.find (fun l => String.eqb (cell_phone l) (ci_from c))
                       (combined_leads env))].
Proof.
  intros Hev Hfetch Hlogs Hleads Hdid Hfind Hst Hlow.
  eexists. split.
  - unfold incomingCallNotification, participantJoin.
    rewrite Hev. unfold_monad. cbn.
    rewrite fetchCall_run, Hfetch.
    rewrite logCallStatus_up by assumption.
    rewrite findLeadByPhoneNumber_run, Hleads.
    rewrite findUserByPhoneNumber_run, Hdid, Hfind.
    unfold assigned. rewrite Hst, Hlow. cbn.
    rewrite emit_run. reflexivity.
  - cbn. rewrite <- !app_assoc. split; reflexivity.
Qed.

(** C4: on a join event, when the lookup of the callee's number in
    [did_numbers] returns a row whose status is "assigned" in any letter
    case, the event is routed to that user whatever the ring-group table
    holds: the handling succeeds, the routed message goes to
    [user-notification-{assigned_user}], and the only directory queries are
    the lead and the user lookups, so the ring-group table is not queried. *)
Theorem assigned_user_takes_precedence input c u s w :
  StatusCallbackEvent input = Some "participant-join" ->
  calls_fetch env (CallSid input) = Some c ->
  call_logs_up env = true ->
  combined_leads_up env = true ->
  did_numbers_up env = true ->
  List.find (fun d => String.eqb (did_phone_number d) (ci_to c)) (did_numbers env) = Some u ->
  did_status u = Some s ->
  Js.toLowerCase s = "assigned" ->
  result_of (incomingCallNotification env input) w = Ok tt
  /\ new_emitted w (world_after (incomingCallNotification env input) w)
     = [outbound_call_status c;
        user_notification input c u
          (List.find (fun l => String.eqb (cell_phone l) (ci_from c))
                     (combined_leads env))]
  /\ new_lookups w (world_after (incomingCallNotification env input) w)
     = [LeadByPhone (ci_from c); UserByPhone (ci_to c)]
  /\ forall phone,
       ~ In (RingGroupByPhone phone)
            (new_lookups w (world_after (incomingCallNotification env input) w)).
Proof.
  intros Hev Hfetch Hlogs Hleads Hdid Hfind Hst Hlow.
  destruct (join_assigned_run input c u s w) as (w' & Hrun & Hlook & Hemit); try assumption.
  unfold result_of, world_after, new_emitted, new_lookups.
  rewrite Hrun. cbn [fst snd]. rewrite Hlook, Hemit, !drop_app_length.
  repeat split.
  intros phone [H|[H|[]]]; discriminate.
Qed.

(** C8 (amended): a directory lookup against an unreachable table is fatal
    for the event and is not swallowed into a fallback.  A join event
    throws whenever [did_numbers] is unreachable, and whenever
    [ring_groups] is unreachable unless the callee resolves to an assigned
    user (the ring groups are not consulted then); a status update other
    than "completed" throws whenever [did_numbers] is unreachable.  What
    reaches the caller is the error of the handler's outer catch ("Error
    receiving webhook data"), not the error of the store, and no message
    is published on a routing channel: the only message there can be is
    the [outbound-call-status] of a join event's call-log write. *)
Theorem directory_failure_is_raised input w :
  (StatusCallbackEvent input = Some "participant-join"
   /\ (did_numbers_up env = false
       \/ (ring_groups_up env = false
           /\ forall c,
                calls_fetch env (CallSid input) = Some c ->
                resolves (List.find
                            (fun d => String.eqb (did_phone_number d) (ci_to c))
                            (did_numbers env)) <> Some true)))
  \/ (Js.truthy (StatusCallbackEvent input) = false
      /\ Js.truthy (CallStatus input) = true
      /\ CallStatus input <> Some "completed"
      /\ did_numbers_up env = false) ->
  result_of (incomingCallNotification env input) w
  = Throw "Error receiving webhook data"
  /\ forall m,
       In m (new_emitted w (world_after (incomingCallNotification env input) w)) ->
       channel m = "outbound-call-status".
Proof.
  unfold result_of, world_after, new_emitted.
  unfold incomingCallNotification, participantJoin, callStatus, assigned.
  unfold_monad.
  intros [[Hev Hdown]|(Hev & Hcs & Hne & Hdown)].
  - rewrite Hev. cbn. rewrite fetchCall_run.
    destruct (calls_fetch env (CallSid input)) as [c|] eqn:Hfetch;
      [|new_lists; split; [reflexivity|intros m []]].
    assert (did_numbers_up env = false
            \/ (ring_groups_up env = false
                /\ resolves (List.find
                               (fun d => String.eqb (did_phone_number d) (ci_to c))
                               (did_numbers env)) <> Some true)) as Hc.
    { destruct Hdown as [?|[? Hres]]; [now left|right; split; [assumption|]].
      now apply Hres. }
    clear Hdown. revert Hc. unfold resolves.
    crank.
    all: new_lists.
    all: intros Hc; (split; [| intros m Hm; cbn in Hm]).
    all: try reflexivity.
    all: try (exfalso; intuition congruence).
    all: try (destruct Hm as [<-|Hm]; [reflexivity|]).
    all: try (destruct Hm as [<-|Hm]; [exfalso; intuition congruence|]).
    all: try (destruct Hm).
    all: exfalso; intuition congruence.
  - rewrite Hev, Hcs.
    destruct (CallStatus input) as [cs|] eqn:Hcs'; [|discriminate].
    assert (String.eqb cs "completed" = false) as Hcompleted.
    { destruct (String.eqb_spec cs "completed"); [subst; congruence|reflexivity]. }
    cbn. rewrite Hcompleted. cbn.
    rewrite findUserByPhoneNumber_run, Hdown.
    new_lists. split; [reflexivity|intros m []].
Qed.

(** C6 (amended): an event that is handled without error publishes exactly
    one routed message, on the channel of its routing target: a join event
    publishes two messages, first [outbound-call-status] for the fetched
    call, from the call-log write, and then one message on the channel the
    specification gives the target its resolver computes for the callee;
    a status update other than "completed" publishes one message, on the
    channel the specification gives the target of the payload's [To]. *)
Theorem routed_events_publish input w :
  result_of (incomingCallNotification env input) w = Ok tt ->
  (StatusCallbackEvent input = Some "participant-join" ->
   exists c m,
     calls_fetch env (CallSid input) = Some c
     /\ new_emitted w (world_after (incomingCallNotification env input) w)
        = [outbound_call_status c; m]
     /\ channel m
        = RoutingSpec.channel_of RoutingSpec.Join
            (RoutingSpec.resolve (did_numbers env) (ring_groups env) (ci_to c)))
  /\ (Js.truthy (StatusCallbackEvent input) = false ->
      Js.truthy (CallStatus input) = true ->
      CallStatus input <> Some "completed" ->
      exists m,
        new_emitted w (world_after (incomingCallNotification env input) w) = [m]
        /\ channel m
           = RoutingSpec.channel_of RoutingSpec.StatusUpdate
               (RoutingSpec.resolve (did_numbers env) (ring_groups env)
                  (default "" (To input)))).
Proof.
  unfold result_of, world_after, new_emitted.
  unfold incomingCallNotification, participantJoin, callStatus, assigned.
  unfold RoutingSpec.resolve, RoutingSpec.resolves_to_user, outbound_call_status.
  unfold_monad. intros Hok. split.
  - intros Hev. revert Hok. rewrite Hev. cbn.
    rewrite fetchCall_run.
    destruct (calls_fetch env (CallSid input)) as [c|] eqn:Hfetch;
      [|intros Hok; discriminate Hok].
    intros Hok. exists c. revert Hok.
    crank.
    all: new_lists.
    all: intros Hok; try discriminate Hok.
    all: try (exfalso; congruence).
    all: eexists; split; [reflexivity|]; split; reflexivity.
  - intros Hev Hcs Hne. revert Hok. rewrite Hev, Hcs.
    destruct (CallStatus input) as [cs|] eqn:Hcs'; [|discriminate].
    assert (String.eqb cs "completed" = false) as Hcompleted.
    { destruct (String.eqb_spec cs "completed"); [subst; congruence|reflexivity]. }
    cbn. rewrite Hcompleted.
    crank.
    all: new_lists.
    all: intros Hok; try discriminate Hok.
    all: try (exfalso; congruence).
    all: eexists; split; [reflexivity|].
    all: cbn; try reflexivity.
    all: destruct (find _ (ring_groups env)); reflexivity.
Qed.

End Routing.

(* ===================================================================== *)
(** ** The attended transfer *)
(* ===================================================================== *)

Arguments updateParticipant : simpl never.
Arguments dial : simpl never.
Arguments addParticipantToConference : simpl never.

Section Transfer.

Variable env : Env.

Lemma updateParticipant_run conferenceSid callSid Hold w :
  updateParticipant env conferenceSid callSid Hold w
  = if participant_update env conferenceSid callSid Hold
    then (Ok tt,
          with_on_hold (<[(conferenceSid, callSid) := Hold]> (on_hold w))
            (with_requests
               (requests w ++ [ParticipantUpdate conferenceSid callSid Hold]) w))
    else (Throw "Failed to update participant",
          with_requests
            (requests w ++ [ParticipantUpdate conferenceSid callSid Hold]) w).
Proof.
  unfold updateParticipant. unfold_monad. cbn.
  now destruct (participant_update env conferenceSid callSid Hold).
Qed.

Lemma dial_run from to url w :
  dial env from to url w
  = match calls_create env url from to with
    | Some response =>
        if call_logs_up env
        then (Ok {| callSid := ci_sid response; dial_status := ci_status response |},
              world_after
                (logCallStatus env (ci_sid response) (ci_status response)
                   "outbound" from to None None None None)
                (with_requests (requests w ++ [CallsCreate url from to]) w))
        else (Throw "Failed to initiate call",
              with_requests (requests w ++ [CallsCreate url from to]) w)
    | None =>
        (Throw "Failed to initiate call",
         with_requests (requests w ++ [CallsCreate url from to]) w)
    end.
Proof.
  unfold dial, world_after. unfold_monad. cbn.
  destruct (calls_create env url from to) as [response|]; [|reflexivity].
  destruct (call_logs_up env) eqn:Hup.
  - now rewrite logCallStatus_up by assumption.
  - now rewrite logCallStatus_down by assumption.
Qed.

Lemma addParticipantToConference_run callSid lamlBinUrl w :
  addParticipantToConference env callSid lamlBinUrl w
  = (match calls_update env callSid lamlBinUrl with
     | Some response => Ok response
     | None => Throw "Failed to add participant"
     end,
     with_requests (requests w ++ [CallsUpdate callSid lamlBinUrl]) w).
Proof.
  unfold addParticipantToConference. unfold_monad. cbn.
  now destruct (calls_update env callSid lamlBinUrl).
Qed.

Ltac crank_transfer :=
  repeat (cbn;
    first
    [ rewrite updateParticipant_run
    | rewrite dial_run
    | rewrite addParticipantToConference_run
    | rewrite logCallStatus_up by assumption
    | match goal with
      | |- context [if ?b then _ else _] => destruct b eqn:?
      | |- context [match calls_create ?e ?u ?f ?t with _ => _ end] =>
          destruct (calls_create e u f t) eqn:?
      | |- context [match calls_update ?e ?c ?u with _ => _ end] =>
          destruct (calls_update e c u) eqn:?
      end ]).

Lemma complete_fields body :
  complete body = true ->
  Js.truthy (conferenceSid body) = true /\ Js.truthy (originalCallSid body) = true
  /\ Js.truthy (consultFrom body) = true /\ Js.truthy (consultTo body) = true
  /\ Js.truthy (consultUrl body) = true.
Proof.
  unfold complete. rewrite !andb_true_iff. tauto.
Qed.

(** C1 (amended): when the consultation dial fails after the original
    participant was put on hold, the controller issues no further
    call-control request: it answers 500 with the error message, the only
    requests it has sent are the hold and the dial, and the original
    participant is still on hold. *)
Theorem dial_failure_leaves_original_on_hold body w :
  complete body = true ->
  participant_update env (fst (original body)) (snd (original body)) true = true ->
  calls_create env (default "" (consultUrl body)) (default "" (consultFrom body))
    (default "" (consultTo body)) = None
  \/ call_logs_up env = false ->
  result_of (attendedTransfer env body) w
  = Ok {| status := 500;
          json := ("error",
                   "Failed to create consultation call: Failed to initiate call") |}
  /\ on_hold (world_after (attendedTransfer env body) w) !! original body = Some true
  /\ new_requests w (world_after (attendedTransfer env body) w)
     = [ParticipantUpdate (fst (original body)) (snd (original body)) true;
        CallsCreate (default "" (consultUrl body)) (default "" (consultFrom body))
          (default "" (consultTo body))].
Proof.
  intros Hbody Hhold Hdial.
  destruct (complete_fields body Hbody) as (H1 & H2 & H3 & H4 & H5).
  unfold result_of, world_after, new_requests, original in *.
  unfold attendedTransfer, transferSteps, holdOriginalParticipant,
    createConsultationCall, addConsultationCallToConference,
    unholdOriginalParticipant.
  rewrite H1, H2, H3, H4, H5. cbn in Hhold.
  unfold_monad. cbn.
  rewrite updateParticipant_run, Hhold. cbn.
  rewrite dial_run.
  destruct Hdial as [Hdial|Hdial]; rewrite Hdial.
  - cbn. rewrite lookup_insert_eq.
    rewrite <- app_assoc, drop_app_length. repeat split.
  - destruct (calls_create env _ _ _); cbn; rewrite lookup_insert_eq;
      rewrite <- app_assoc, drop_app_length; repeat split.
Qed.

(** C9: every request by which [attendedTransfer] attaches a call to the
    conference carries the connect URL
    ["https://your-laml-bin.com/whatever"], whatever the body of the request
    and whatever the environment answers. *)
Theorem bridge_uses_fixed_url body w sid url :
  In (CallsUpdate sid url)
     (new_requests w (world_after (attendedTransfer env body) w)) ->
  url = LAML_BIN_URL_FOR_CONFERENCE.
Proof.
  unfold world_after, new_requests.
  unfold attendedTransfer, transferSteps, holdOriginalParticipant,
    createConsultationCall, addConsultationCallToConference,
    unholdOriginalParticipant.
  unfold_monad.
  crank_transfer.
  all: unfold world_after; rewrite ?logCallStatus_up by assumption.
  all: new_lists.
  all: intros H; intuition congruence.
Qed.

(** The bridge step is reached once the hold and the dial have succeeded,
    and it is asked to connect the dialled call. *)
Lemma bridge_is_reached body c w :
  complete body = true ->
  participant_update env (fst (original body)) (snd (original body)) true = true ->
  calls_create env (default "" (consultUrl body)) (default "" (consultFrom body))
    (default "" (consultTo body)) = Some c ->
  call_logs_up env = true ->
  In (CallsUpdate (ci_sid c) LAML_BIN_URL_FOR_CONFERENCE)
     (new_requests w (world_after (attendedTransfer env body) w)).
Proof.
  intros Hbody Hhold Hdial Hlogs.
  destruct (complete_fields body Hbody) as (H1 & H2 & H3 & H4 & H5).
  unfold world_after, new_requests, original in *.
  unfold attendedTransfer, transferSteps, holdOriginalParticipant,
    createConsultationCall, addConsultationCallToConference,
    unholdOriginalParticipant.
  rewrite H1, H2, H3, H4, H5. cbn in Hhold.
  unfold_monad. cbn.
  rewrite updateParticipant_run, Hhold. cbn.
  rewrite dial_run, Hdial, Hlogs. cbn.
  unfold world_after. rewrite logCallStatus_up by assumption. cbn.
  rewrite addParticipantToConference_run.
  destruct (calls_update env _ _); cbn.
  - rewrite updateParticipant_run.
    destruct (participant_update env _ _ false); new_lists; auto.
  - new_lists; auto.
Qed.

End Transfer.

(* ===================================================================== *)
(** ** The voice status callback *)
(* ===================================================================== *)

Section VoiceStatus.

Variable env : Env.

Import Sql.

Lemma with_call_logs_same w : with_call_logs (call_logs w) w = w.
Proof. now destruct w. Qed.

(** The [UPDATE] is rejected whatever parameters come with it: its [SET]
    list does not parse. *)
Lemma voiceStatus_update_malformed n : well_formed voiceStatus_update n = false.
Proof. unfold well_formed. cbn. apply andb_false_r. Qed.

(** It refers to six parameters, and the handler supplies four. *)
Lemma voiceStatus_update_arity payload :
  arity voiceStatus_update = 6%nat
  /\ length [of_string (CallStatus payload); of_string (CallDuration payload);
            of_string (participantSid payload); of_string (CallSid payload)] = 4%nat.
Proof. split; reflexivity. Qed.

Lemma handleVoiceStatusCallback_conflict payload sid old w :
  CallSid payload = Some sid ->
  call_logs w !! sid = Some old ->
  handleVoiceStatusCallback env payload w
  = (Throw (if call_logs_up env then rejected else unreachable), w).
Proof.
  intros Hsid Hold.
  unfold handleVoiceStatusCallback, query. unfold_monad.
  destruct (call_logs_up env); [|reflexivity].
  rewrite Hsid. cbn. rewrite Hold. cbn.
  now rewrite with_call_logs_same.
Qed.

(** C10: for a payload whose [CallSid] already has a row in [call_logs],
    [handleVoiceStatusCallback] throws and leaves the world, and so the
    stored row, as it was: the server rejects the [UPDATE] it sends. *)
Theorem voice_status_update_fails payload sid old w :
  CallSid payload = Some sid ->
  call_logs w !! sid = Some old ->
  exists message,
    handleVoiceStatusCallback env payload w = (Throw message, w)
    /\ call_logs (world_after (handleVoiceStatusCallback env payload) w) !! sid
       = Some old.
Proof.
  intros Hsid Hold. unfold world_after.
  rewrite (handleVoiceStatusCallback_conflict payload sid old w Hsid Hold).
  eexists. split; [reflexivity|exact Hold].
Qed.


(** So a callback that succeeds found no row for its [CallSid]. *)
Lemma voice_status_success_is_insert payload sid w :
  CallSid payload = Some sid ->
  result_of (handleVoiceStatusCallback env payload) w = Ok tt ->
  call_logs w !! sid = None.
Proof.
  intros Hsid Hok.
  destruct (call_logs w !! sid) as [old|] eqn:Hold; [|reflexivity].
  unfold result_of in Hok.
  rewrite (handleVoiceStatusCallback_conflict payload sid old w Hsid Hold) in Hok.
  discriminate.
Qed.

End VoiceStatus.


(* ===================================================================== *)
(** ** The scenarios, run *)
(* ===================================================================== *)

Section Scenarios.

Import Sql.

(** C1, at a provider that accepts the hold and refuses the dial: the
    controller answers 500 after two requests, none of them an unhold, and
    the original participant stays on hold. *)
Lemma dial_failure_sends_no_unhold :
  result_of (attendedTransfer office_no_dial transfer_request) quiet
  = Ok {| status := 500;
          json := ("error",
                   "Failed to create consultation call: Failed to initiate call") |}
  /\ requests (world_after (attendedTransfer office_no_dial transfer_request) quiet)
     = [ParticipantUpdate "CF1" "CA1" true;
        CallsCreate "https://example.com/consult.xml" "+15553334444" "+15557778888"]
  /\ on_hold (world_after (attendedTransfer office_no_dial transfer_request) quiet)
       !! ("CF1", "CA1")
     = Some true.
Proof. vm_compute. repeat split. Qed.

Lemma dial_failure_witness :
  result_of (attendedTransfer office_no_dial transfer_request) quiet
  = Ok {| status := 500;
          json := ("error",
                   "Failed to create consultation call: Failed to initiate call") |}
  /\ on_hold (world_after (attendedTransfer office_no_dial transfer_request) quiet)
       !! original transfer_request
     = Some true
  /\ new_requests quiet
       (world_after (attendedTransfer office_no_dial transfer_request) quiet)
     = [ParticipantUpdate "CF1" "CA1" true;
        CallsCreate "https://example.com/consult.xml" "+15553334444" "+15557778888"].
Proof.
  apply (dial_failure_leaves_original_on_hold office_no_dial transfer_request quiet).
  - reflexivity.
  - reflexivity.
  - left. reflexivity.
Defined.

(** C2, at [callStatusUpdate] with a payload that carries a status and no
    [RecordingUrl], for a call whose row holds a recording URL: the upsert
    succeeds and the stored [recording_url] is null afterwards. *)
Theorem callStatusUpdate_clears_recording_url :
  r_recording_url <$> (call_logs recorded !! "CA1")
  = Some (VText "https://files.example/CA1.wav")
  /\ RecordingUrl (webhook None (Some "completed") None) = None
  /\ r_recording_url <$>
       (call_logs
          (world_after (callStatusUpdate office (webhook None (Some "completed") None))
             recorded) !! "CA1")
     = Some VNull.
Proof. vm_compute. repeat split. Qed.

(** The same payload through [logCallStatus] keeps the URL. *)
Lemma logCallStatus_keeps_recording_url_here :
  r_recording_url <$>
    (call_logs
       (world_after
          (logCallStatus office "CA1" "completed" "inbound" "+15551112222"
             "+15553334444" None None None None)
          recorded) !! "CA1")
  = Some (VText "https://files.example/CA1.wav").
Proof. vm_compute. reflexivity. Qed.

(** C3, at [logCallStatus] applied at time 1 and again at time 2: the row
    after the second application differs from the row after the first in
    its [timestamp]. *)
Lemma second_upsert_restamps :
  call_logs
    (world_after
       (logCallStatus office "CA1" "ringing" "inbound" "+15551112222"
          "+15553334444" None None None None) quiet) !! "CA1"
  = Some (Row (VText "CA1") (VText "ringing") (VText "inbound")
            (VText "+15551112222") (VText "+15553334444")
            VNull VNull VNull VNull (VTime 1))
  /\ call_logs
       (twice
          (logCallStatus office "CA1" "ringing" "inbound" "+15551112222"
             "+15553334444" None None None None) 2 quiet) !! "CA1"
     = Some (Row (VText "CA1") (VText "ringing") (VText "inbound")
               (VText "+15551112222") (VText "+15553334444")
               VNull VNull VNull VNull (VTime 2)).
Proof. vm_compute. split; reflexivity. Qed.

Lemma assigned_user_witness :
  result_of
    (incomingCallNotification office
       (webhook (Some "participant-join") None (Some "+15553334444"))) quiet
  = Ok tt
  /\ new_emitted quiet
       (world_after
          (incomingCallNotification office
             (webhook (Some "participant-join") None (Some "+15553334444"))) quiet)
     = [outbound_call_status caller_leg;
        user_notification
          (webhook (Some "participant-join") None (Some "+15553334444"))
          caller_leg jdoe
          (List.find (fun l => String.eqb (cell_phone l) (ci_from caller_leg))
                     (combined_leads office))]
  /\ new_lookups quiet
       (world_after
          (incomingCallNotification office
             (webhook (Some "participant-join") None (Some "+15553334444"))) quiet)
     = [LeadByPhone (ci_from caller_leg); UserByPhone (ci_to caller_leg)]
  /\ forall phone,
       ~ In (RingGroupByPhone phone)
            (new_lookups quiet
               (world_after
                  (incomingCallNotification office
                     (webhook (Some "participant-join") None (Some "+15553334444")))
                  quiet)).
Proof.
  apply (assigned_user_takes_precedence office
           (webhook (Some "participant-join") None (Some "+15553334444"))
           caller_leg jdoe "Assigned" quiet); reflexivity.
Defined.

(** C5, at a payload whose [StatusCallbackEvent] is present and empty: the
    handling follows [CallStatus]; with "ringing" it looks the callee up and
    publishes a status message, and without a [CallStatus] it does
    nothing. *)
Lemma empty_event_falls_through :
  StatusCallbackEvent (webhook (Some "") (Some "ringing") (Some "+15553334444"))
  = Some ""
  /\ map channel
       (emitted
          (world_after
             (incomingCallNotification office
                (webhook (Some "") (Some "ringing") (Some "+15553334444"))) quiet))
     = ["user-call-status-jdoe"]
  /\ map channel
       (emitted
          (world_after
             (incomingCallNotification office
                (webhook (Some "") None (Some "+15553334444"))) quiet))
     = [].
Proof. vm_compute. repeat split. Qed.

Lemma event_decides_witness :
  (forall cs,
     incomingCallNotification office
       (with_CallStatus cs (webhook (Some "conference-end") (Some "ringing") None))
       quiet
     = incomingCallNotification office
         (webhook (Some "conference-end") (Some "ringing") None) quiet)
  /\ ("conference-end" = "conference-end" ->
      forall cs,
        incomingCallNotification office
          (with_CallStatus cs (webhook (Some "conference-end") (Some "ringing") None))
          quiet
        = (Ok tt,
           with_emitted
             (emitted quiet ++
              [conference_end (webhook (Some "conference-end") (Some "ringing") None)])
             quiet)).
Proof.
  apply (event_decides_classification office
           (webhook (Some "conference-end") (Some "ringing") None)
           "conference-end" quiet).
  - reflexivity.
  - discriminate.
Defined.

(** C6, at a join event routed to jdoe: two messages are published. *)
Lemma join_publishes_two_messages :
  result_of
    (incomingCallNotification office
       (webhook (Some "participant-join") None (Some "+15553334444"))) quiet
  = Ok tt
  /\ map channel
       (new_emitted quiet
          (world_after
             (incomingCallNotification office
                (webhook (Some "participant-join") None (Some "+15553334444")))
             quiet))
     = ["outbound-call-status"; "user-notification-jdoe"].
Proof. vm_compute. split; reflexivity. Qed.

Lemma routed_events_witness :
  (exists c m,
     calls_fetch office
       (CallSid (webhook (Some "participant-join") None (Some "+15553334444")))
     = Some c
     /\ new_emitted quiet
          (world_after
             (incomingCallNotification office
                (webhook (Some "participant-join") None (Some "+15553334444")))
             quiet)
        = [outbound_call_status c; m]
     /\ channel m
        = RoutingSpec.channel_of RoutingSpec.Join
            (RoutingSpec.resolve (did_numbers office) (ring_groups office)
               (ci_to c)))
  /\ RoutingSpec.channel_of RoutingSpec.Join
       (RoutingSpec.resolve (did_numbers office) (ring_groups office)
          (ci_to caller_leg))
     = "user-notification-jdoe"
  /\ (exists m,
        new_emitted quiet
          (world_after
             (incomingCallNotification office
                (webhook None (Some "ringing") (Some "+15553334444"))) quiet)
        = [m]
        /\ channel m = "user-call-status-jdoe")
  /\ (exists m,
        new_emitted quiet
          (world_after
             (incomingCallNotification office
                (webhook None (Some "ringing") (Some "+15550000000"))) quiet)
        = [m]
        /\ channel m = "call-status-update").
Proof.
  split; [|split; [reflexivity|split]].
  - apply (routed_events_publish office
             (webhook (Some "participant-join") None (Some "+15553334444")) quiet);
      reflexivity.
  - apply (routed_events_publish office
             (webhook None (Some "ringing") (Some "+15553334444")) quiet);
      try reflexivity.
    discriminate.
  - apply (routed_events_publish office
             (webhook None (Some "ringing") (Some "+15550000000")) quiet);
      try reflexivity.
    discriminate.
Defined.

Lemma completed_status_witness :
  incomingCallNotification office (webhook None (Some "completed") None) quiet
  = (Ok tt, quiet).
Proof.
  apply (completed_status_is_silent office (webhook None (Some "completed") None) quiet);
    reflexivity.
Defined.

(** C8, at a join event with [did_numbers] unreachable: the lookup throws
    the error of the store, the handler throws another. *)
Lemma store_error_is_replaced :
  result_of (findUserByPhoneNumber office_no_directory "+15553334444") quiet
  = Throw "Failed to find user by phone number"
  /\ result_of
       (incomingCallNotification office_no_directory
          (webhook (Some "participant-join") None (Some "+15553334444"))) quiet
     = Throw "Error receiving webhook data".
Proof. vm_compute. split; reflexivity. Qed.

Lemma directory_failure_witness :
  (result_of
     (incomingCallNotification office_no_directory
        (webhook (Some "participant-join") None (Some "+15553334444"))) quiet
   = Throw "Error receiving webhook data"
   /\ forall m,
        In m
          (new_emitted quiet
             (world_after
                (incomingCallNotification office_no_directory
                   (webhook (Some "participant-join") None (Some "+15553334444")))
                quiet)) ->
        channel m = "outbound-call-status")
  /\ (result_of
        (incomingCallNotification office_no_ring_groups
           (webhook (Some "participant-join") None (Some "+15553334444"))) quiet
      = Throw "Error receiving webhook data"
      /\ forall m,
           In m
             (new_emitted quiet
                (world_after
                   (incomingCallNotification office_no_ring_groups
                      (webhook (Some "participant-join") None
                         (Some "+15553334444")))
                   quiet)) ->
           channel m = "outbound-call-status")
  /\ (result_of
        (incomingCallNotification office_no_directory
           (webhook None (Some "ringing") (Some "+15553334444"))) quiet
      = Throw "Error receiving webhook data"
      /\ forall m,
           In m
             (new_emitted quiet
                (world_after
                   (incomingCallNotification office_no_directory
                      (webhook None (Some "ringing") (Some "+15553334444")))
                   quiet)) ->
           channel m = "outbound-call-status").
Proof.
  split; [|split].
  - apply (directory_failure_is_raised office_no_directory
             (webhook (Some "participant-join") None (Some "+15553334444")) quiet).
    left. split; [reflexivity|]. left. reflexivity.
  - apply (directory_failure_is_raised office_no_ring_groups
             (webhook (Some "participant-join") None (Some "+15553334444")) quiet).
    left. split; [reflexivity|]. right. split; [reflexivity|].
    intros c _. cbn. discriminate.
  - apply (directory_failure_is_raised office_no_directory
             (webhook None (Some "ringing") (Some "+15553334444")) quiet).
    right. split; [reflexivity|]. split; [reflexivity|].
    split; [discriminate|reflexivity].
Defined.

Lemma bridge_url_witness :
  consultUrl transfer_request = Some "https://example.com/consult.xml"
  /\ In (CallsUpdate "CA2" "https://your-laml-bin.com/whatever")
        (new_requests quiet (world_after (attendedTransfer office transfer_request) quiet))
  /\ "https://your-laml-bin.com/whatever" = LAML_BIN_URL_FOR_CONFERENCE.
Proof.
  split; [reflexivity|].
  assert (In (CallsUpdate "CA2" "https://your-laml-bin.com/whatever")
            (new_requests quiet
               (world_after (attendedTransfer office transfer_request) quiet))) as Hreq.
  { vm_compute. right. right. left. reflexivity. }
  split; [exact Hreq|].
  exact (bridge_uses_fixed_url office transfer_request quiet "CA2" _ Hreq).
Defined.

Lemma voice_status_witness :
  exists message,
    handleVoiceStatusCallback office (webhook None (Some "completed") None) recorded
    = (Throw message, recorded)
    /\ call_logs
         (world_after
            (handleVoiceStatusCallback office (webhook None (Some "completed") None))
            recorded) !! "CA1"
       = Some (Row (VText "CA1") (VText "in-progress") (VText "inbound")
                 (VText "+15551112222") (VText "+15553334444") (VNum 42)
                 (VText "https://files.example/CA1.wav") VNull VNull (VTime 1)).
Proof.
  apply (voice_status_update_fails office (webhook None (Some "completed") None)
           "CA1" _ recorded).
  - reflexivity.
  - vm_compute. reflexivity.
Defined.

End Scenarios.

(* ===================================================================== *)
(** ** What the upserts keep *)
(* ===================================================================== *)

Section Columns.

Variable env : Env.

Import Sql.

(** X1: when the call already has a row, [logCallStatus] keeps its call sid,
    direction, from-number and to-number as they were stored: the values
    passed for them in the later call are not written. *)
Theorem logCallStatus_keeps_origin callSid callStatus direction from to
    callDuration recordingUrl participantSid conferenceSid w old :
  call_logs w !! callSid = Some old ->
  exists new,
    call_logs
      (world_after
         (logCallStatus env callSid callStatus direction from to callDuration
            recordingUrl participantSid conferenceSid) w) !! callSid = Some new
    /\ r_call_sid new = r_call_sid old
    /\ r_direction new = r_direction old
    /\ r_from_number new = r_from_number old
    /\ r_to_number new = r_to_number old.
Proof.
  intros Hold. unfold world_after.
  destruct (call_logs_up env) eqn:Hup.
  - rewrite logCallStatus_up by assumption. cbn.
    rewrite lookup_insert_eq, Hold. eexists. split; [reflexivity|].
    destruct old; cbn; auto.
  - rewrite logCallStatus_down by assumption. cbn. eauto 6.
Qed.

(** X2: [logCallStatus] called without a duration, a participant sid and a
    conference sid on a call that has a row sets these three columns of the
    row to NULL, whatever they held (unlike the recording URL, which an
    absent argument leaves alone). *)
Theorem logCallStatus_clears_absent_details callSid callStatus direction from to
    recordingUrl w old :
  call_logs_up env = true ->
  call_logs w !! callSid = Some old ->
  exists new,
    call_logs
      (world_after
         (logCallStatus env callSid callStatus direction from to None
            recordingUrl None None) w) !! callSid = Some new
    /\ r_call_duration new = VNull
    /\ r_participant_sid new = VNull
    /\ r_conference_sid new = VNull.
Proof.
  intros Hup Hold. unfold world_after.
  rewrite logCallStatus_up by assumption. cbn.
  rewrite lookup_insert_eq, Hold. eexists. split; [reflexivity|]. cbn. auto.
Qed.

(** X3: both upserts touch the row of their own call only: the row stored
    under any other call sid is the same before and after [logCallStatus]
    and [callStatusUpdate], whether they succeed or fail. *)
Theorem upserts_touch_one_row callSid callStatus direction from to
    callDuration recordingUrl participantSid conferenceSid data w other :
  other <> callSid ->
  CallSid data <> Some other ->
  call_logs
    (world_after
       (logCallStatus env callSid callStatus direction from to callDuration
          recordingUrl participantSid conferenceSid) w) !! other
  = call_logs w !! other
  /\ call_logs (world_after (callStatusUpdate env data) w) !! other
     = call_logs w !! other.
Proof.
  intros Hne Hdata. unfold world_after. split.
  - destruct (call_logs_up env) eqn:Hup.
    + rewrite logCallStatus_up by assumption. cbn.
      now rewrite lookup_insert_ne.
    + now rewrite logCallStatus_down by assumption.
  - destruct (call_logs_up env) eqn:Hup.
    + destruct (CallSid data) as [sid|] eqn:Hsid.
      * rewrite (callStatusUpdate_up env data sid w Hup Hsid). cbn.
        rewrite lookup_insert_ne; [reflexivity|congruence].
      * now rewrite callStatusUpdate_rejected by now right.
    + now rewrite callStatusUpdate_rejected by now left.
Qed.

(** X4: when the call already has a row, [callStatusUpdate] keeps the
    columns its ON CONFLICT clause does not list: call sid, direction,
    from-number, to-number, participant sid and conference sid. *)
Theorem callStatusUpdate_keeps_unlisted data sid w old :
  CallSid data = Some sid ->
  call_logs w !! sid = Some old ->
  exists new,
    call_logs (world_after (callStatusUpdate env data) w) !! sid = Some new
    /\ r_call_sid new = r_call_sid old
    /\ r_direction new = r_direction old
    /\ r_from_number new = r_from_number old
    /\ r_to_number new = r_to_number old
    /\ r_participant_sid new = r_participant_sid old
    /\ r_conference_sid new = r_conference_sid old.
Proof.
  intros Hsid Hold. unfold world_after.
  destruct (call_logs_up env) eqn:Hup.
  - rewrite (callStatusUpdate_up env data sid w Hup Hsid). cbn.
    rewrite lookup_insert_eq, Hold. eexists. split; [reflexivity|].
    destruct old; cbn; tauto.
  - rewrite callStatusUpdate_rejected by now left. cbn. eexists. split; [exact Hold|tauto].
Qed.

End Columns.

(* ===================================================================== *)
(** ** The other branches of the notification handler *)
(* ===================================================================== *)

Section Branches.

Variable env : Env.

(** X5: a participant-leave or conference-end event is answered by one
    broadcast on the channel of the same name, built from the payload
    alone: no call is fetched, no table is read and no row is written, so
    the event is handled even when every database is down. *)
Theorem broadcast_events_bypass_stores input ev w :
  StatusCallbackEvent input = Some ev ->
  ev = "participant-leave" \/ ev = "conference-end" ->
  incomingCallNotification env input w
  = (Ok tt,
     with_emitted
       (emitted w ++
        [if String.eqb ev "participant-leave"
         then participant_leave input else conference_end input]) w).
Proof.
  intros Hev [->| ->]; unfold incomingCallNotification; unfold_monad;
    now rewrite Hev.
Qed.


(** X7: a join event whose callee has no row in [did_numbers], or a row
    whose status is not "assigned" in any letter case, falls back to the
    ring groups: the three tables are read in the order leads, numbers,
    ring groups, and after the outbound-call-status message the handler
    sends ring-group-notification when the callee is in a ring group and
    incoming-call otherwise. *)
Theorem unresolved_join_falls_back input c w :
  StatusCallbackEvent input = Some "participant-join" ->
  calls_fetch env (CallSid input) = Some c ->
  call_logs_up env = true ->
  combined_leads_up env = true ->
  did_numbers_up env = true ->
  ring_groups_up env = true ->
  resolves (List.find (fun d => String.eqb (did_phone_number d) (ci_to c))
                      (did_numbers env)) = Some false ->
  result_of (incomingCallNotification env input) w = Ok tt
  /\ new_lookups w (world_after (incomingCallNotification env input) w)
     = [LeadByPhone (ci_from c); UserByPhone (ci_to c); RingGroupByPhone (ci_to c)]
  /\ new_emitted w (world_after (incomingCallNotification env input) w)
     = [outbound_call_status c;
        match List.find (fun g => String.eqb (rg_phone_number g) (ci_to c))
                        (ring_groups env) with
        | Some g =>
            ring_group_notification input c g
              (List.find (fun l => String.eqb (cell_phone l) (ci_from c))
                         (combined_leads env))
        | None =>
            incoming_call input c
              (List.find (fun l => String.eqb (cell_phone l) (ci_from c))
                         (combined_leads env))
        end].
Proof.
  intros Hev Hfetch Hlogs Hleads Hdid Hring Hres.
  unfold result_of, world_after, new_lookups, new_emitted.
  unfold incomingCallNotification, participantJoin, assigned.
  rewrite Hev. unfold_monad. cbn.
  rewrite fetchCall_run, Hfetch.
  rewrite logCallStatus_up by assumption.
  rewrite findLeadByPhoneNumber_run, Hleads.
  rewrite findUserByPhoneNumber_run, Hdid.
  unfold resolves in Hres.
  destruct (find _ (did_numbers env)) as [u|].
  - destruct (did_status u) as [s|]; [|discriminate].
    injection Hres as Hres. rewrite Hres. cbn.
    rewrite findRingGroupByPhoneNumber_run, Hring.
    destruct (find _ (ring_groups env)); rewrite emit_run; new_lists; repeat split.
  - cbn. rewrite findRingGroupByPhoneNumber_run, Hring.
    destruct (find _ (ring_groups env)); rewrite emit_run; new_lists; repeat split.
Qed.

(** X8: a status update other than "completed" reads [did_numbers] once,
    for the callee (the empty string when the payload has no To), and
    nothing else: no provider request is sent, no lead or ring group is
    looked up, the call log is not written, and whatever is sent goes to a
    status channel. *)
Theorem status_update_consults_only_did_numbers input s w :
  Js.truthy (StatusCallbackEvent input) = false ->
  CallStatus input = Some s ->
  s <> "" ->
  s <> "completed" ->
  new_lookups w (world_after (incomingCallNotification env input) w)
  = [UserByPhone (default "" (To input))]
  /\ requests (world_after (incomingCallNotification env input) w) = requests w
  /\ call_logs (world_after (incomingCallNotification env input) w) = call_logs w
  /\ forall m,
       In m (new_emitted w (world_after (incomingCallNotification env input) w)) ->
       status_channel (channel m).
Proof.
  intros Hev Hcs Hne Hcompleted.
  unfold world_after, new_lookups, new_emitted.
  unfold incomingCallNotification, callStatus, assigned. unfold_monad.
  rewrite Hev, Hcs. cbn.
  destruct (String.eqb_spec s ""); [contradiction|].
  destruct (String.eqb_spec s "completed"); [contradiction|].
  crank.
  all: new_lists.
  all: split; [reflexivity|split; [reflexivity|split; [reflexivity|]]].
  all: intros m Hm; cbn in Hm.
  all: intuition (subst; unfold status_channel; cbn; eauto).
Qed.

(** X9: when the row found in [did_numbers] has a NULL status, the slim
    handler fails: reading [user.status.toLowerCase()] throws, the event is
    answered with the error "Error receiving webhook data", the ring groups
    are never consulted and no routed message is sent (a join event has
    already sent its outbound-call-status message). *)
Theorem null_status_row_fails_the_event input w u :
  (StatusCallbackEvent input = Some "participant-join"
   /\ exists c, calls_fetch env (CallSid input) = Some c
        /\ call_logs_up env = true /\ combined_leads_up env = true
        /\ List.find (fun d => String.eqb (did_phone_number d) (ci_to c))
                     (did_numbers env) = Some u)
  \/ (Js.truthy (StatusCallbackEvent input) = false
      /\ Js.truthy (CallStatus input) = true
      /\ CallStatus input <> Some "completed"
      /\ List.find (fun d => String.eqb (did_phone_number d) (default "" (To input)))
                   (did_numbers env) = Some u) ->
  did_numbers_up env = true ->
  did_status u = None ->
  result_of (incomingCallNotification env input) w
  = Throw "Error receiving webhook data"
  /\ (forall phone,
        ~ In (RingGroupByPhone phone)
             (new_lookups w (world_after (incomingCallNotification env input) w)))
  /\ (forall m,
        In m (new_emitted w (world_after (incomingCallNotification env input) w)) ->
        channel m = "outbound-call-status").
Proof.
  intros Hcase Hdid Hnull.
  unfold result_of, world_after, new_lookups, new_emitted.
  unfold incomingCallNotification, participantJoin, callStatus, assigned. unfold_monad.
  destruct Hcase as [(Hev & c & Hfetch & Hlogs & Hleads & Hfind)
                    |(Hev & Hcs & Hne & Hfind)].
  - rewrite Hev. cbn.
    rewrite fetchCall_run, Hfetch.
    rewrite logCallStatus_up by assumption.
    rewrite findLeadByPhoneNumber_run, Hleads.
    rewrite findUserByPhoneNumber_run, Hdid, Hfind, Hnull.
    new_lists. split; [reflexivity|]. split.
    + intros phone [H|[H|[]]]; discriminate.
    + intros m [<-|[]]. reflexivity.
  - rewrite Hev, Hcs.
    destruct (CallStatus input) as [cs|] eqn:Hcs'; [|discriminate].
    assert (String.eqb cs "completed" = false) as Hcompleted.
    { destruct (String.eqb_spec cs "completed"); [subst; congruence|reflexivity]. }
    cbn. rewrite Hcompleted. cbn.
    rewrite findUserByPhoneNumber_run, Hdid, Hfind, Hnull.
    new_lists. split; [reflexivity|]. split.
    + intros phone [H|[]]; discriminate.
    + intros m [].
Qed.

End Branches.

(* ===================================================================== *)
(** ** The whole attended transfer, dialling and redelivery *)
(* ===================================================================== *)

Ltac run_transfer :=
  repeat (cbn;
    first
    [ rewrite updateParticipant_run
    | rewrite dial_run
    | rewrite addParticipantToConference_run
    | rewrite logCallStatus_up by assumption
    | match goal with
      | |- context [if ?b then _ else _] => destruct b eqn:?
      | |- context [match calls_create ?e ?u ?f ?t with _ => _ end] =>
          destruct (calls_create e u f t) eqn:?
      | |- context [match calls_update ?e ?c ?u with _ => _ end] =>
          destruct (calls_update e c u) eqn:?
      end ]).

Section Transfers.

Variable env : Env.

Import Sql.

(** X10: a transfer request in which any of the five fields is missing or
    empty is answered 400 with the list of required fields, and nothing is
    done: no request is sent to the provider and no state changes. *)
Theorem incomplete_transfer_is_rejected body w :
  complete body = false ->
  attendedTransfer env body w
  = (Ok {| status := 400;
           json := ("error",
                    "conferenceSid, originalCallSid, consultFrom, consultTo, consultUrl are required") |},
     w).
Proof.
  intros Hbody. unfold attendedTransfer, complete in *. unfold_monad.
  destruct (Js.truthy (conferenceSid body)), (Js.truthy (originalCallSid body)),
    (Js.truthy (consultFrom body)), (Js.truthy (consultTo body)),
    (Js.truthy (consultUrl body)); try discriminate; reflexivity.
Qed.

(** X11: when all four steps succeed, the attended transfer answers 200 and
    has sent exactly four provider requests in this order: hold the
    original participant, create the consultation call, redirect that call
    to the fixed conference URL, unhold the original participant. The
    original participant ends off hold and the consultation call has a row
    in the call log. *)
Theorem completed_transfer body c w :
  complete body = true ->
  participant_update env (fst (original body)) (snd (original body)) true = true ->
  calls_create env (default "" (consultUrl body)) (default "" (consultFrom body))
    (default "" (consultTo body)) = Some c ->
  call_logs_up env = true ->
  calls_update env (ci_sid c) LAML_BIN_URL_FOR_CONFERENCE <> None ->
  participant_update env (fst (original body)) (snd (original body)) false = true ->
  result_of (attendedTransfer env body) w
  = Ok {| status := 200;
          json := ("message",
                   "Attended transfer complete (original unheld, consult call bridged)") |}
  /\ new_requests w (world_after (attendedTransfer env body) w)
     = [ParticipantUpdate (fst (original body)) (snd (original body)) true;
        CallsCreate (default "" (consultUrl body)) (default "" (consultFrom body))
          (default "" (consultTo body));
        CallsUpdate (ci_sid c) LAML_BIN_URL_FOR_CONFERENCE;
        ParticipantUpdate (fst (original body)) (snd (original body)) false]
  /\ on_hold (world_after (attendedTransfer env body) w) !! original body = Some false
  /\ is_Some (call_logs (world_after (attendedTransfer env body) w) !! ci_sid c).
Proof.
  intros Hbody Hhold Hdial Hlogs Hbridge Hunhold.
  destruct (complete_fields body Hbody) as (H1 & H2 & H3 & H4 & H5).
  unfold result_of, world_after, new_requests, original in *.
  unfold attendedTransfer, transferSteps, holdOriginalParticipant,
    createConsultationCall, addConsultationCallToConference,
    unholdOriginalParticipant.
  rewrite H1, H2, H3, H4, H5. cbn in Hhold, Hunhold.
  unfold_monad. cbn.
  rewrite updateParticipant_run, Hhold. cbn.
  rewrite dial_run, Hdial, Hlogs. cbn.
  unfold world_after. rewrite logCallStatus_up by assumption. cbn.
  rewrite addParticipantToConference_run.
  destruct (calls_update env _ _); [|contradiction]. cbn.
  rewrite updateParticipant_run, Hunhold. new_lists.
  rewrite lookup_insert_eq, lookup_insert_eq.
  repeat split. eauto.
Qed.

(** X12: whichever step fails, an attended transfer answered 500 never
    takes the original participant off hold: if the hold request had
    succeeded the participant is left on hold, and if the hold request
    itself failed the hold flag is as it was before. *)
Theorem failed_transfer_keeps_hold body message w :
  complete body = true ->
  result_of (attendedTransfer env body) w
  = Ok {| status := 500; json := ("error", message) |} ->
  on_hold (world_after (attendedTransfer env body) w) !! original body
  = if participant_update env (fst (original body)) (snd (original body)) true
    then Some true
    else on_hold w !! original body.
Proof.
  intros Hbody.
  destruct (complete_fields body Hbody) as (H1 & H2 & H3 & H4 & H5).
  unfold result_of, world_after, original.
  unfold attendedTransfer, transferSteps, holdOriginalParticipant,
    createConsultationCall, addConsultationCallToConference,
    unholdOriginalParticipant.
  rewrite H1, H2, H3, H4, H5.
  unfold_monad. cbn.
  run_transfer.
  all: unfold world_after; rewrite ?logCallStatus_up by assumption.
  all: cbn; rewrite ?lookup_insert_eq; intros Hr; try discriminate Hr; reflexivity.
Qed.


(** X14: when the provider places the call but the call log cannot be
    written, [dial] reports "Failed to initiate call" although the call
    exists at the provider; the only request sent is the creation, so the
    call is neither hung up nor recorded. *)
Theorem dial_store_failure_orphans_call from to url c w :
  calls_create env url from to = Some c ->
  call_logs_up env = false ->
  dial env from to url w
  = (Throw "Failed to initiate call",
     with_requests (requests w ++ [CallsCreate url from to]) w).
Proof.
  intros Hcreate Hdown. now rewrite dial_run, Hcreate, Hdown.
Qed.

End Transfers.

(* ===================================================================== *)
(** ** The refactoring of the notification handler *)
(* ===================================================================== *)

Arguments Original.logCallStatus : simpl never.

Section Refactoring.

Variable env : Env.

Lemma original_logCallStatus_run callSid callStatus direction from to callDuration
    recordingUrl participantSid conferenceSid w :
  Original.logCallStatus env callSid callStatus direction from to callDuration
    recordingUrl participantSid conferenceSid w
  = if call_logs_up env
    then (Ok tt,
          world_after
            (logCallStatus env callSid callStatus direction from to callDuration
               recordingUrl participantSid conferenceSid) w)
    else (Throw unreachable, w).
Proof.
  unfold world_after.
  destruct (call_logs_up env) eqn:Hup.
  - rewrite logCallStatus_up by assumption.
    unfold Original.logCallStatus, query, emit, logCallStatus_text.
    unfold_monad. rewrite Hup. unfold Sql.run.
    destruct (Js.truthy recordingUrl) eqn:Hrec; cbn;
      destruct (call_logs w !! callSid) as [[]|] eqn:Hold; cbn;
      rewrite ?Hrec; reflexivity.
  - unfold Original.logCallStatus, query. unfold_monad. now rewrite Hup.
Qed.

(** X16: the slim service handles every webhook payload exactly as the
    original service did (same result, same messages, same lookups, same
    rows), as long as no row of [did_numbers] has a NULL status. *)
Theorem refactored_notification_agrees input w :
  (forall d, In d (did_numbers env) -> did_status d <> None) ->
  incomingCallNotification env input w
  = Original.incomingCallNotification env input w.
Proof.
  intros Hstatus.
  unfold incomingCallNotification, Original.incomingCallNotification.
  unfold participantJoin, Original.participantJoin, assigned, Original.assigned.
  unfold_monad.
  destruct (Js.truthy (StatusCallbackEvent input)); [|reflexivity].
  destruct (String.eqb _ "participant-join"); [|reflexivity].
  rewrite fetchCall_run.
  destruct (calls_fetch env (CallSid input)) as [c|]; [|reflexivity]. cbn.
  rewrite original_logCallStatus_run. unfold world_after.
  destruct (call_logs_up env) eqn:Hup.
  - rewrite logCallStatus_up by assumption. cbn.
    rewrite findLeadByPhoneNumber_run.
    destruct (combined_leads_up env); [|reflexivity]. cbn.
    rewrite findUserByPhoneNumber_run.
    destruct (did_numbers_up env); [|reflexivity]. cbn.
    destruct (find _ (did_numbers env)) as [u|] eqn:Hfind; [|reflexivity].
    apply find_some in Hfind as [Hin _].
    specialize (Hstatus u Hin).
    destruct (did_status u); [reflexivity|contradiction].
  - rewrite logCallStatus_down by assumption. reflexivity.
Qed.

(** X17: the two services differ on a join event whose callee has a row
    with a NULL status: the original service reads the status with
    optional chaining, treats the number as unassigned and falls back to
    the ring group or incoming-call channel; the slim service throws
    "Error receiving webhook data" after the outbound-call-status
    message. *)
Theorem original_null_status_falls_back input c u w :
  StatusCallbackEvent input = Some "participant-join" ->
  calls_fetch env (CallSid input) = Some c ->
  call_logs_up env = true ->
  combined_leads_up env = true ->
  did_numbers_up env = true ->
  ring_groups_up env = true ->
  List.find (fun d => String.eqb (did_phone_number d) (ci_to c)) (did_numbers env)
  = Some u ->
  did_status u = None ->
  result_of (Original.incomingCallNotification env input) w = Ok tt
  /\ result_of (incomingCallNotification env input) w
     = Throw "Error receiving webhook data"
  /\ map channel
       (new_emitted w (world_after (Original.incomingCallNotification env input) w))
     = ["outbound-call-status";
        match List.find (fun g => String.eqb (rg_phone_number g) (ci_to c))
                        (ring_groups env) with
        | Some _ => "ring-group-notification"
        | None => "incoming-call"
        end]
  /\ map channel
       (new_emitted w (world_after (incomingCallNotification env input) w))
     = ["outbound-call-status"].
Proof.
  intros Hev Hfetch Hlogs Hleads Hdid Hring Hfind Hnull.
  unfold result_of, world_after, new_emitted.
  unfold incomingCallNotification, Original.incomingCallNotification.
  unfold participantJoin, Original.participantJoin, assigned, Original.assigned.
  rewrite Hev. unfold_monad. cbn.
  rewrite fetchCall_run, Hfetch. cbn.
  rewrite original_logCallStatus_run, Hlogs. unfold world_after.
  rewrite logCallStatus_up by assumption. cbn.
  rewrite findLeadByPhoneNumber_run, Hleads. cbn.
  rewrite findUserByPhoneNumber_run, Hdid, Hfind, Hnull. cbn.
  rewrite findRingGroupByPhoneNumber_run, Hring. cbn.
  destruct (find _ (ring_groups env)); rewrite emit_run; new_lists; repeat split.
Qed.

End Refactoring.

(* ===================================================================== *)
(** ** Numbers read from strings *)
(* ===================================================================== *)

(** Below [2^53] a number is read exactly. *)
Lemma to_double_exact negative m :
  m < 2 ^ 53 -> Js.to_double negative m = Js.Num (if negative then - m else m).
Proof.
  intros Hm. unfold Js.to_double.
  destruct (Z.ltb_spec m (2 ^ 53)) as [_|Hge]; [reflexivity|lia].
Qed.

(** [parseInt] where exact arithmetic and ASCII white space would not do:
    above [2^53] the value is the nearest double, to even on a tie; a
    no-break space before the digits is skipped; what follows the digits
    is ignored; [10^309] is an infinity. *)
Lemma parseInt_rounds_and_trims :
  Js.parseInt "9007199254740993" = Js.Num 9007199254740992
  /\ Js.parseInt "9007199254740995" = Js.Num 9007199254740996
  /\ Js.parseInt (String (ascii_of_nat 194) (String (ascii_of_nat 160) "555"))
     = Js.Num 555
  /\ Js.parseInt " -12abc" = Js.Num (-12)
  /\ Js.parseInt "abc" = Js.NaN
  /\ Js.to_double false (10 ^ 309) = Js.Infinity false.
Proof. vm_compute. repeat split. Qed.

(* ===================================================================== *)
(** ** The recording status callback, run *)
(* ===================================================================== *)

Section RecordingFacts.

Variable env : Env.

Import Sql.

Lemma no_row_selected sid (t : gmap string row) :
  List.filter (fun kr => Recording.selects sid (snd kr)) (map_to_list t) = []
  <-> forall k r, t !! k = Some r -> Recording.selects sid r = false.
Proof.
  split.
  - intros Hnil k r Hkr.
    destruct (Recording.selects sid r) eqn:Hsel; [|reflexivity].
    assert (In (k, r) (List.filter (fun kr => Recording.selects sid (snd kr))
                         (map_to_list t))) as Hin.
    { apply filter_In. split; [|exact Hsel].
      apply list_elem_of_In, elem_of_map_to_list, Hkr. }
    rewrite Hnil in Hin. destruct Hin.
  - intros Hnone.
    destruct (List.filter _ (map_to_list t)) as [|[k r] rest] eqn:Hf; [reflexivity|].
    assert (In (k, r) (List.filter (fun kr => Recording.selects sid (snd kr))
                         (map_to_list t))) as Hin by (rewrite Hf; now left).
    apply filter_In in Hin as [Hin Hsel].
    apply list_elem_of_In, elem_of_map_to_list in Hin.
    cbn in Hsel. rewrite (Hnone k r Hin) in Hsel. discriminate.
Qed.

Lemma recordingStatusCallback_run body w :
  Js.truthy (Recording.CallSid body) || Js.truthy (Recording.ConferenceSid body) = true ->
  Js.truthy (Recording.RecordingUrl body) = true ->
  call_logs_up env = true ->
  Recording.recordingStatusCallback env body w
  = (Ok (if (length (List.filter
                       (fun kr => Recording.selects
                                    (of_string (Recording.sidUsedForLookup body))
                                    (snd kr))
                       (map_to_list (call_logs w))) =? 0)%nat
         then Json 404 "error" "No matching record found"
         else Send 200 "OK"),
     with_call_logs
       (recorded_row (of_string (Recording.RecordingUrl body))
          (parsed_duration (Recording.RecordingDuration body))
          (of_string (Recording.sidUsedForLookup body)) <$> call_logs w) w).
Proof.
  intros Hsid Hurl Hup.
  unfold Recording.recordingStatusCallback, Recording.query_update. unfold_monad.
  apply orb_true_iff in Hsid.
  assert (negb (Js.truthy (Recording.CallSid body))
          && negb (Js.truthy (Recording.ConferenceSid body)) = false) as ->.
  { destruct Hsid as [-> | ->]; cbn; [reflexivity|apply andb_false_r]. }
  rewrite Hurl, Hup. cbn.
  destruct (_ =? 0)%nat; reflexivity.
Qed.

(** X18: a recording callback that names neither a call nor a conference,
    or that has no recording URL, is answered 400 and changes nothing; the
    missing sid is reported before the missing URL. *)
Theorem recording_callback_validates body w :
  (Js.truthy (Recording.CallSid body) = false
   /\ Js.truthy (Recording.ConferenceSid body) = false)
  \/ Js.truthy (Recording.RecordingUrl body) = false ->
  Recording.recordingStatusCallback env body w
  = (Ok (Json 400 "error"
           (if Js.truthy (Recording.CallSid body)
               || Js.truthy (Recording.ConferenceSid body)
            then "Missing RecordingUrl"
            else "Missing callSid or conferenceSid")), w).
Proof.
  intros H. unfold Recording.recordingStatusCallback. unfold_monad.
  destruct (Js.truthy (Recording.CallSid body)),
    (Js.truthy (Recording.ConferenceSid body)),
    (Js.truthy (Recording.RecordingUrl body)); cbn; try reflexivity;
    destruct H as [[? ?]|?]; discriminate.
Qed.

(** X19: an accepted recording callback sets the recording URL and the
    duration of every row whose call sid or conference sid equals the sid
    it looks up, and leaves every other row, and every other column of the
    rows it changes, as they were. *)
Theorem recording_callback_updates_selected_rows body w k :
  Js.truthy (Recording.CallSid body) || Js.truthy (Recording.ConferenceSid body) = true ->
  Js.truthy (Recording.RecordingUrl body) = true ->
  call_logs_up env = true ->
  call_logs (world_after (Recording.recordingStatusCallback env body) w) !! k
  = recorded_row (of_string (Recording.RecordingUrl body))
      (parsed_duration (Recording.RecordingDuration body))
      (of_string (Recording.sidUsedForLookup body)) <$> (call_logs w !! k).
Proof.
  intros Hsid Hurl Hup. unfold world_after.
  rewrite recordingStatusCallback_run by assumption. cbn.
  apply lookup_fmap.
Qed.

(** X20: when no row of the call log has the looked-up sid as its call
    sid or conference sid, the recording callback is answered 404 and the
    call log is unchanged. *)
Theorem recording_callback_without_row body w :
  Js.truthy (Recording.CallSid body) || Js.truthy (Recording.ConferenceSid body) = true ->
  Js.truthy (Recording.RecordingUrl body) = true ->
  call_logs_up env = true ->
  (forall k r, call_logs w !! k = Some r ->
     Recording.selects (of_string (Recording.sidUsedForLookup body)) r = false) ->
  result_of (Recording.recordingStatusCallback env body) w
  = Ok (Json 404 "error" "No matching record found")
  /\ call_logs (world_after (Recording.recordingStatusCallback env body) w)
     = call_logs w.
Proof.
  intros Hsid Hurl Hup Hnone. unfold result_of, world_after.
  rewrite recordingStatusCallback_run by assumption. cbn.
  rewrite (proj2 (no_row_selected _ _) Hnone). split; [reflexivity|].
  apply map_eq. intros k. rewrite lookup_fmap.
  destruct (call_logs w !! k) as [r|] eqn:Hk; [|reflexivity]. cbn.
  unfold recorded_row. now rewrite (Hnone k r Hk).
Qed.

(** X21: when the body has a CallSid, its ConferenceSid plays no part:
    the callback behaves the same whatever the ConferenceSid is, so rows
    are matched against the CallSid only. *)
Theorem recording_callback_prefers_CallSid body cf w :
  Js.truthy (Recording.CallSid body) = true ->
  Recording.recordingStatusCallback env (with_ConferenceSid cf body) w
  = Recording.recordingStatusCallback env body w.
Proof.
  intros Hsid.
  unfold Recording.recordingStatusCallback, Recording.sidUsedForLookup.
  cbn. now rewrite Hsid.
Qed.

(** X22: the refactored endpoint (StatusController over StatusService)
    changes the call log exactly as the original handler does, but its
    answers are coarser: it answers 200 OK where the original does, and
    500 "Failed to update call logs" in every other case, including the
    validation failures and the unknown sid that the original answers with
    400 and 404. *)
Theorem refactored_recording_callback body w :
  world_after (Recording.statusControllerRecordingStatusCallback env body) w
  = world_after (Recording.recordingStatusCallback env body) w
  /\ result_of (Recording.statusControllerRecordingStatusCallback env body) w
     = Ok (match result_of (Recording.recordingStatusCallback env body) w with
           | Ok (Send 200 text) => Send 200 text
           | _ => Send 500 "Failed to update call logs"
           end).
Proof.
  unfold result_of, world_after.
  unfold Recording.statusControllerRecordingStatusCallback,
    Recording.statusRecordingStatusCallback, Recording.recordingStatusCallback,
    Recording.query_update.
  unfold_monad.
  destruct (negb (Js.truthy (Recording.CallSid body))
            && negb (Js.truthy (Recording.ConferenceSid body))); [now split|].
  destruct (negb (Js.truthy (Recording.RecordingUrl body))); [now split|].
  destruct (call_logs_up env); [|now split].
  destruct (Recording.run_update _ _ _) as [[o t]|]; [|now split].
  destruct (rowCount o =? 0)%nat; now split.
Qed.

Lemma join_logs_the_call input c w :
  StatusCallbackEvent input = Some "participant-join" ->
  calls_fetch env (CallSid input) = Some c ->
  call_logs_up env = true ->
  call_logs (world_after (incomingCallNotification env input) w)
  = <[ci_sid c :=
        logged (clock w) (ci_sid c) (ci_status c) "inbound" (ci_from c) (ci_to c)
          None None None (ConferenceSid input) (call_logs w !! ci_sid c)]>
      (call_logs w).
Proof.
  intros Hev Hfetch Hup.
  unfold world_after, incomingCallNotification, participantJoin, assigned.
  rewrite Hev. unfold_monad. cbn.
  rewrite fetchCall_run, Hfetch. cbn.
  rewrite logCallStatus_up by assumption.
  crank.
  all: reflexivity.
Qed.

(** X23: the join handler and the recording callback compose: after a
    join event logged the call under its conference, a recording callback
    that names only that conference is answered 200 OK and stores its URL
    in the row of the joined call. *)
Theorem conference_recording_reaches_joined_call input c cf url w :
  StatusCallbackEvent input = Some "participant-join" ->
  calls_fetch env (CallSid input) = Some c ->
  call_logs_up env = true ->
  ConferenceSid input = Some cf ->
  cf <> "" ->
  url <> "" ->
  result_of (Recording.recordingStatusCallback env (conference_recording cf url))
    (world_after (incomingCallNotification env input) w)
  = Ok (Send 200 "OK")
  /\ r_recording_url <$>
       (call_logs
          (world_after
             (Recording.recordingStatusCallback env (conference_recording cf url))
             (world_after (incomingCallNotification env input) w)) !! ci_sid c)
     = Some (VText url).
Proof.
  intros Hev Hfetch Hup Hcf Hne Hurl.
  pose proof (join_logs_the_call input c w Hev Hfetch Hup) as Hlogs.
  set (w1 := world_after (incomingCallNotification env input) w) in *.
  assert (exists r, call_logs w1 !! ci_sid c = Some r
                    /\ r_conference_sid r = VText cf) as (r & Hr & Hconf).
  { rewrite Hlogs, lookup_insert_eq. eexists. split; [reflexivity|].
    rewrite Hcf. unfold logged, or_null. rewrite (truthy_nonempty cf Hne).
    now destruct (call_logs w !! ci_sid c). }
  assert (Recording.selects (VText cf) r = true) as Hsel.
  { unfold Recording.selects. rewrite Hconf. cbn.
    rewrite String.eqb_refl. apply orb_true_r. }
  unfold result_of, world_after.
  rewrite recordingStatusCallback_run;
    [|exact (truthy_nonempty cf Hne)|exact (truthy_nonempty url Hurl)|assumption].
  cbn.
  destruct (List.filter _ (map_to_list (call_logs w1))) as [|x rest] eqn:Hf.
  - pose proof (proj1 (no_row_selected (VText cf) (call_logs w1)) Hf _ _ Hr) as Hno.
    rewrite Hsel in Hno. discriminate.
  - cbn. split; [reflexivity|].
    rewrite lookup_fmap, Hr. cbn. unfold recorded_row.
    cbn. rewrite Hsel. now destruct r.
Qed.

End RecordingFacts.

(* ===================================================================== *)
(** ** Numbers bought and assigned *)
(* ===================================================================== *)

Section DidFacts.

Variable env : Env.
Variable api : Did.Numbers.

Lemma least_In l p : Did.least api l = Some p -> In p l.
Proof.
  revert p. induction l as [|x rest IH]; intros p H; [discriminate|].
  cbn in H. destruct (Did.least api rest) as [y|].
  - injection H as <-. destruct (Did.sorts_before api x y); [now left|right; now apply IH].
  - injection H as <-. now left.
Qed.

Lemma least_None l : Did.least api l = None -> l = [].
Proof.
  destruct l as [|x rest]; [reflexivity|]. cbn.
  now destruct (Did.least api rest).
Qed.

Lemma selectFree_row t p :
  Did.selectFree api t = Some p ->
  exists n, In n t /\ Did.free n = true /\ did_phone_number n = p.
Proof.
  intros H. apply least_In, in_map_iff in H as (n & Hp & Hin).
  apply filter_In in Hin as [Hin Hfree]. eauto.
Qed.

Lemma selectFree_None t :
  Did.selectFree api t = None -> forall n, In n t -> Did.free n = false.
Proof.
  intros H n Hin. apply least_None in H.
  destruct (Did.free n) eqn:Hfree; [|reflexivity].
  assert (In (did_phone_number n)
            (map did_phone_number (List.filter Did.free t))) as Hp.
  { apply in_map, filter_In. now split. }
  rewrite H in Hp. destruct Hp.
Qed.

Lemma selectFree_Some t n :
  In n t -> Did.free n = true -> exists p, Did.selectFree api t = Some p.
Proof.
  intros Hin Hfree.
  destruct (Did.selectFree api t) as [p|] eqn:H; [eauto|].
  rewrite (selectFree_None t H n Hin) in Hfree. discriminate.
Qed.

Lemma configureNumber_rows phoneNumber d :
  Did.rows (snd (Did.configureNumber api phoneNumber d)) = Did.rows d.
Proof.
  unfold Did.configureNumber, Did.try_catch, Did.bind, Did.ask, Did.throw. cbn.
  destruct (Did.incomingPhoneNumbers_list api phoneNumber) as [[|sid rest]|e];
    cbn; try reflexivity.
  now destruct (Did.incomingPhoneNumbers_update api sid).
Qed.

Lemma assignDidToUser_run username d :
  did_numbers_up env = true ->
  Did.assignDidToUser env api username d
  = match Did.selectFree api (Did.rows d) with
    | None => (Throw "No 'Free' DIDs available to assign.", d)
    | Some phoneNumber =>
        let configured :=
          Did.configureNumber api phoneNumber
            {| Did.rows := map (Did.assign username phoneNumber) (Did.rows d);
               Did.sent := Did.sent d |} in
        (match fst configured with
         | Ok _ => Ok phoneNumber
         | Throw message => Throw message
         end, snd configured)
    end.
Proof.
  intros Hup.
  unfold Did.assignDidToUser, Did.try_catch, Did.bind, Did.directory, Did.throw, Did.ret.
  rewrite Hup. cbn.
  destruct (Did.selectFree api (Did.rows d)) as [p|]; cbn.
  - destruct (Did.configureNumber api p _) as [[[]|message] d2]; reflexivity.
  - now destruct d.
Qed.

Lemma assignDidToUser_down username d :
  did_numbers_up env = false ->
  Did.assignDidToUser env api username d = (Throw unreachable, d).
Proof.
  intros Hdown.
  unfold Did.assignDidToUser, Did.try_catch, Did.bind, Did.directory, Did.throw.
  now rewrite Hdown.
Qed.

(** What a successful assignment did. *)
Lemma assignDidToUser_Ok username phoneNumber d :
  fst (Did.assignDidToUser env api username d) = Ok phoneNumber ->
  Did.selectFree api (Did.rows d) = Some phoneNumber
  /\ Did.rows (snd (Did.assignDidToUser env api username d))
     = map (Did.assign username phoneNumber) (Did.rows d).
Proof.
  destruct (did_numbers_up env) eqn:Hup.
  - rewrite assignDidToUser_run by assumption.
    destruct (Did.selectFree api (Did.rows d)) as [p|]; [|discriminate].
    cbn. rewrite configureNumber_rows. cbn.
    destruct (fst (Did.configureNumber api p _)); [|discriminate].
    intros [= ->]. now split.
  - rewrite assignDidToUser_down by assumption. discriminate.
Qed.

(** X24: when no number of the directory is free, [assignDidToUser] throws
    "No 'Free' DIDs available to assign." and neither writes the directory
    nor contacts the provider. *)
Theorem assignment_needs_a_free_number username d :
  did_numbers_up env = true ->
  (forall n, In n (Did.rows d) -> did_status n <> Some "Free") ->
  Did.assignDidToUser env api username d
  = (Throw "No 'Free' DIDs available to assign.", d).
Proof.
  intros Hup Hnone. rewrite assignDidToUser_run by assumption.
  destruct (Did.selectFree api (Did.rows d)) as [p|] eqn:Hsel; [|reflexivity].
  apply selectFree_row in Hsel as (n & Hin & Hfree & _).
  exfalso. apply (Hnone n Hin). unfold Did.free in Hfree.
  destruct (did_status n) as [s|]; [|discriminate].
  apply String.eqb_eq in Hfree. now subst.
Qed.

(** X25: a successful [assignDidToUser] returns a number that was free in
    the directory, and afterwards the rows with that number are assigned to
    the user while every other row is as before. *)
Theorem assignment_takes_a_free_number username phoneNumber d :
  fst (Did.assignDidToUser env api username d) = Ok phoneNumber ->
  (exists n, In n (Did.rows d)
             /\ did_phone_number n = phoneNumber /\ did_status n = Some "Free")
  /\ Did.rows (snd (Did.assignDidToUser env api username d))
     = map (fun n =>
              if String.eqb (did_phone_number n) phoneNumber
              then {| did_phone_number := did_phone_number n;
                      did_status := Some "Assigned";
                      assigned_user := Some username |}
              else n) (Did.rows d).
Proof.
  intros Hok. apply assignDidToUser_Ok in Hok as [Hsel Hrows]. split.
  - apply selectFree_row in Hsel as (n & Hin & Hfree & Hp).
    exists n. repeat split; try assumption.
    unfold Did.free in Hfree. destruct (did_status n) as [s|]; [|discriminate].
    apply String.eqb_eq in Hfree. now subst.
  - exact Hrows.
Qed.

(** X26: the assignment is not rolled back when the configuration fails:
    if the provider does not know the chosen number, [assignDidToUser]
    throws "Incoming phone number ... not found", yet the directory already
    has the number assigned to the user. *)
Theorem assignment_is_kept_when_configuration_fails username phoneNumber d :
  did_numbers_up env = true ->
  Did.selectFree api (Did.rows d) = Some phoneNumber ->
  Did.incomingPhoneNumbers_list api phoneNumber = Ok [] ->
  fst (Did.assignDidToUser env api username d)
  = Throw ("Incoming phone number " +:+ phoneNumber +:+ " not found")
  /\ Did.rows (snd (Did.assignDidToUser env api username d))
     = map (Did.assign username phoneNumber) (Did.rows d).
Proof.
  intros Hup Hsel Hlist.
  rewrite assignDidToUser_run by assumption. rewrite Hsel. cbn.
  rewrite configureNumber_rows. cbn.
  unfold Did.configureNumber, Did.try_catch, Did.bind, Did.ask, Did.throw. cbn.
  rewrite Hlist. now split.
Qed.

(** X27: two assignments in a row never hand out the same number: the
    number returned by the second differs from the one returned by the
    first. *)
Theorem numbers_are_not_assigned_twice first second p1 p2 d :
  fst (Did.assignDidToUser env api first d) = Ok p1 ->
  fst (Did.assignDidToUser env api second
         (snd (Did.assignDidToUser env api first d))) = Ok p2 ->
  p1 <> p2.
Proof.
  intros H1 H2 Heq. subst p2.
  apply assignDidToUser_Ok in H1 as [_ Hrows].
  apply assignDidToUser_Ok in H2 as [Hsel _].
  rewrite Hrows in Hsel.
  apply selectFree_row in Hsel as (n & Hin & Hfree & Hp).
  apply in_map_iff in Hin as (n0 & <- & _).
  unfold Did.assign in *.
  destruct (String.eqb_spec (did_phone_number n0) p1) as [Hn0|Hn0].
  - cbn in Hfree. discriminate.
  - contradiction.
Qed.

(** X28: assign, then list: after a successful [assignDidToUser],
    [getDidNumbersByUser] for the same user succeeds and lists the returned
    number, with status Assigned. *)
Theorem assigned_number_is_listed username phoneNumber d :
  fst (Did.assignDidToUser env api username d) = Ok phoneNumber ->
  exists listed,
    fst (Did.getDidNumbersByUser env username
           (snd (Did.assignDidToUser env api username d))) = Ok listed
    /\ In {| did_phone_number := phoneNumber; did_status := Some "Assigned";
             assigned_user := Some username |} listed.
Proof.
  intros Hok.
  assert (did_numbers_up env = true) as Hup.
  { destruct (did_numbers_up env) eqn:Hup; [reflexivity|].
    rewrite assignDidToUser_down in Hok by assumption. discriminate. }
  apply assignDidToUser_Ok in Hok as [Hsel Hrows].
  unfold Did.getDidNumbersByUser, Did.try_catch, Did.directory.
  rewrite Hup, Hrows. cbn. eexists. split; [reflexivity|].
  apply selectFree_row in Hsel as (n & Hin & _ & Hp).
  apply filter_In. split.
  - apply in_map_iff. exists n. split; [|assumption].
    unfold Did.assign. rewrite Hp, String.eqb_refl. reflexivity.
  - cbn. apply String.eqb_refl.
Qed.

Lemma find_assigned username phoneNumber t :
  (exists n, In n t /\ did_phone_number n = phoneNumber) ->
  exists n,
    List.find (fun d => String.eqb (did_phone_number d) phoneNumber)
              (map (Did.assign username phoneNumber) t)
    = Some {| did_phone_number := did_phone_number n;
              did_status := Some "Assigned";
              assigned_user := Some username |}.
Proof.
  induction t as [|x rest IH]; intros (n & Hin & Hp); [destruct Hin|].
  cbn. unfold Did.assign at 1.
  destruct (String.eqb (did_phone_number x) phoneNumber) eqn:Hx.
  - cbn. rewrite Hx. exists x. unfold Did.assign. now rewrite Hx.
  - rewrite Hx. destruct Hin as [->|Hin].
    + rewrite Hp, String.eqb_refl in Hx. discriminate.
    + apply IH. eauto.
Qed.

(** X29: assignment composes with routing: once [assignDidToUser] has given
    a number to a user, a join event for a call to that number, handled
    over the directory the assignment left, is announced on the
    user-notification channel of that user. *)
Theorem assigned_number_is_routed username phoneNumber d input c w :
  fst (Did.assignDidToUser env api username d) = Ok phoneNumber ->
  StatusCallbackEvent input = Some "participant-join" ->
  calls_fetch env (CallSid input) = Some c ->
  ci_to c = phoneNumber ->
  call_logs_up env = true ->
  combined_leads_up env = true ->
  result_of
    (incomingCallNotification
       (with_did_numbers
          (Did.rows (snd (Did.assignDidToUser env api username d))) env) input) w
  = Ok tt
  /\ map channel
       (new_emitted w
          (world_after
             (incomingCallNotification
                (with_did_numbers
                   (Did.rows (snd (Did.assignDidToUser env api username d))) env)
                input) w))
     = ["outbound-call-status"; "user-notification-" +:+ username].
Proof.
  intros Hok Hev Hfetch Hto Hlogs Hleads.
  set (env' := with_did_numbers
                 (Did.rows (snd (Did.assignDidToUser env api username d))) env).
  assert (did_numbers_up env = true) as Hup.
  { destruct (did_numbers_up env) eqn:Hup; [reflexivity|].
    rewrite assignDidToUser_down in Hok by assumption. discriminate. }
  apply assignDidToUser_Ok in Hok as [Hsel Hrows].
  apply selectFree_row in Hsel as (n & Hin & _ & Hp).
  destruct (find_assigned username phoneNumber (Did.rows d)) as (n' & Hfind); [eauto|].
  destruct (join_assigned_run env' input c
              {| did_phone_number := did_phone_number n';
                 did_status := Some "Assigned";
                 assigned_user := Some username |} "Assigned" w)
    as (w' & Hrun & _ & Hemit); try assumption; try reflexivity.
  { subst env'. cbn. rewrite Hrows, Hto. exact Hfind. }
  unfold result_of, world_after, new_emitted.
  rewrite Hrun. cbn [fst snd]. rewrite Hemit, drop_app_length.
  split; reflexivity.
Qed.

Lemma purchaseAll_run done bought d :
  did_numbers_up env = true ->
  Forall2 (fun candidate purchased =>
             Did.incomingPhoneNumbers_create api candidate = Ok purchased)
          done bought ->
  forall rest,
    Did.purchaseAll env api (done ++ rest) d
    = Did.purchaseAll env api rest
        {| Did.rows := Did.rows d ++ map Did.freeRow bought;
           Did.sent := Did.sent d ++ map Did.Create done |}.
Proof.
  intros Hup Hall. revert d.
  induction Hall as [|candidate purchased done bought Hc Hall IH]; intros d rest.
  - cbn. rewrite !app_nil_r. now destruct d.
  - cbn [app Did.purchaseAll]. unfold Did.bind, Did.ask, Did.directory.
    rewrite Hc, Hup. cbn [fst snd Did.rows Did.sent].
    rewrite IH. cbn. now rewrite <- !app_assoc.
Qed.

(** X30: [buyNumbers] has no rollback and stops at the first failure: when
    the provider lists candidates and the purchase of one of them fails,
    the error of that purchase is thrown, the numbers bought before it stay
    bought and are in [did_numbers] as free numbers, and the candidates
    after it are never requested.  The area code the provider is asked for
    is the one [parseInt] reads from the argument. *)
Theorem buyNumbers_stops_at_first_failure areaCode quantity done bought
    failing rest message d :
  Js.parseInt areaCode <> Js.NaN ->
  did_numbers_up env = true ->
  Did.availablePhoneNumbers api (Js.parseInt areaCode) quantity
  = Ok (done ++ failing :: rest) ->
  Forall2 (fun candidate purchased =>
             Did.incomingPhoneNumbers_create api candidate = Ok purchased)
          done bought ->
  Did.incomingPhoneNumbers_create api failing = Throw message ->
  Did.buyNumbers env api areaCode quantity d
  = (Throw message,
     {| Did.rows := Did.rows d ++ map Did.freeRow bought;
        Did.sent := Did.sent d
                    ++ Did.ListAvailable (Js.parseInt areaCode) quantity
                       :: map Did.Create done ++ [Did.Create failing] |}).
Proof.
  intros Hcode Hup Havail Hall Hfail.
  assert (done ++ failing :: rest <> []) as Hne by now destruct done.
  assert (forall (A : Type) (a b : A) (l : list string),
             l <> [] -> match l with [] => a | _ :: _ => b end = b) as Hm.
  { intros A a b [|]; congruence. }
  unfold Did.buyNumbers, Did.try_catch.
  destruct (Js.parseInt areaCode) as [code| |negative] eqn:Hparse;
    [|contradiction|].
  all: unfold Did.bind, Did.ask; rewrite Havail; cbn.
  all: rewrite (Hm _ _ _ _ Hne).
  all: rewrite (purchaseAll_run done bought _ Hup Hall (failing :: rest)); cbn.
  all: unfold Did.bind, Did.ask; rewrite Hfail; cbn.
  all: unfold Did.throw; now rewrite <- !app_assoc.
Qed.

End DidFacts.

(* ===================================================================== *)
(** ** The webhook endpoint *)
(* ===================================================================== *)

Section Endpoint.

Variable env : Env.

Lemma forwarded_fields body :
  Original.incomingCallNotification env (Controller.forwarded body)
  = Original.incomingCallNotification env (without_end_details body).
Proof.
  unfold Original.incomingCallNotification, Original.participantJoin, callStatus.
  reflexivity.
Qed.

(** X15: the webhook endpoint of the controller hands the original service
    every field its handler reads except ReasonConferenceEnded and
    CallSidEndingConference: it behaves as that service does on the body
    without these two fields, and it answers 200 when the service returns
    and 500 "Failed to process incoming webhook from signalwire" when it
    throws.  In particular the conference-end message it triggers never
    carries a reason or the call that ended the conference, whatever the
    body says. *)
Theorem webhook_endpoint_drops_conference_end_details body w :
  Controller.incomingCallNotification env body w
  = match Original.incomingCallNotification env (without_end_details body) w with
    | (Ok _, w') => (Ok (JsonUndefined 200), w')
    | (Throw _, w') =>
        (Ok (Json 500 "error" "Failed to process incoming webhook from signalwire"),
         w')
    end
  /\ (StatusCallbackEvent body = Some "conference-end" ->
      new_emitted w (world_after (Controller.incomingCallNotification env body) w)
      = [{| channel := "conference-end";
            payload := [("conferenceSid", FString (ConferenceSid body));
                        ("reason", FString None);
                        ("callSidEndingConference", FString None)] |}]).
Proof.
  unfold Controller.incomingCallNotification. rewrite forwarded_fields. split.
  - unfold_monad.
    now destruct (Original.incomingCallNotification env (without_end_details body) w)
      as [[[]|e] w'].
  - intros Hev. unfold new_emitted, Original.incomingCallNotification. unfold_monad.
    cbn [StatusCallbackEvent without_end_details].
    rewrite Hev. cbn. rewrite emit_run. new_lists. reflexivity.
Qed.

End Endpoint.

(* ===================================================================== *)
(** ** The further scenarios, run *)
(* ===================================================================== *)

Section FurtherScenarios.

Import Sql.

Lemma logCallStatus_keeps_origin_witness :
  exists new,
    call_logs
      (world_after
         (logCallStatus office "CA1" "completed" "outbound" "+15550001111"
            "+15550002222" None None None None) recorded) !! "CA1" = Some new
    /\ r_call_sid new = r_call_sid logged_CA1
    /\ r_direction new = r_direction logged_CA1
    /\ r_from_number new = r_from_number logged_CA1
    /\ r_to_number new = r_to_number logged_CA1.
Proof.
  apply (logCallStatus_keeps_origin office "CA1" "completed" "outbound"
           "+15550001111" "+15550002222" None None None None recorded logged_CA1).
  vm_compute. reflexivity.
Defined.

Lemma logCallStatus_clears_absent_details_witness :
  exists new,
    call_logs
      (world_after
         (logCallStatus office "CA1" "completed" "inbound" "+15551112222"
            "+15553334444" None None None None) recorded) !! "CA1" = Some new
    /\ r_call_duration new = VNull
    /\ r_participant_sid new = VNull
    /\ r_conference_sid new = VNull.
Proof.
  apply (logCallStatus_clears_absent_details office "CA1" "completed" "inbound"
           "+15551112222" "+15553334444" None recorded logged_CA1).
  - reflexivity.
  - vm_compute. reflexivity.
Defined.

Lemma upserts_touch_one_row_witness :
  call_logs
    (world_after
       (logCallStatus office "CA2" "queued" "outbound" "+15553334444"
          "+15557778888" None None None None) recorded) !! "CA1"
  = call_logs recorded !! "CA1"
  /\ call_logs (world_after (callStatusUpdate office consult_status) recorded) !! "CA1"
     = call_logs recorded !! "CA1".
Proof.
  apply (upserts_touch_one_row office "CA2" "queued" "outbound" "+15553334444"
           "+15557778888" None None None None consult_status recorded "CA1");
    discriminate.
Defined.

Lemma callStatusUpdate_keeps_unlisted_witness :
  exists new,
    call_logs
      (world_after (callStatusUpdate office (webhook None (Some "completed") None))
         recorded) !! "CA1" = Some new
    /\ r_call_sid new = r_call_sid logged_CA1
    /\ r_direction new = r_direction logged_CA1
    /\ r_from_number new = r_from_number logged_CA1
    /\ r_to_number new = r_to_number logged_CA1
    /\ r_participant_sid new = r_participant_sid logged_CA1
    /\ r_conference_sid new = r_conference_sid logged_CA1.
Proof.
  apply (callStatusUpdate_keeps_unlisted office
           (webhook None (Some "completed") None) "CA1" recorded logged_CA1).
  - reflexivity.
  - vm_compute. reflexivity.
Defined.

Lemma broadcast_events_witness :
  incomingCallNotification office_no_directory
    (webhook (Some "participant-leave") None None) quiet
  = (Ok tt,
     with_emitted
       (emitted quiet ++
        [if String.eqb "participant-leave" "participant-leave"
         then participant_leave (webhook (Some "participant-leave") None None)
         else conference_end (webhook (Some "participant-leave") None None)])
       quiet).
Proof.
  apply (broadcast_events_bypass_stores office_no_directory
           (webhook (Some "participant-leave") None None) "participant-leave" quiet).
  - reflexivity.
  - left. reflexivity.
Defined.


Lemma unresolved_join_witness :
  result_of (incomingCallNotification (with_did_numbers [] office) join) quiet = Ok tt
  /\ new_lookups quiet
       (world_after (incomingCallNotification (with_did_numbers [] office) join) quiet)
     = [LeadByPhone (ci_from caller_leg); UserByPhone (ci_to caller_leg);
        RingGroupByPhone (ci_to caller_leg)]
  /\ new_emitted quiet
       (world_after (incomingCallNotification (with_did_numbers [] office) join) quiet)
     = [outbound_call_status caller_leg;
        match List.find (fun g => String.eqb (rg_phone_number g) (ci_to caller_leg))
                        (ring_groups (with_did_numbers [] office)) with
        | Some g =>
            ring_group_notification join caller_leg g
              (List.find (fun l => String.eqb (cell_phone l) (ci_from caller_leg))
                         (combined_leads (with_did_numbers [] office)))
        | None =>
            incoming_call join caller_leg
              (List.find (fun l => String.eqb (cell_phone l) (ci_from caller_leg))
                         (combined_leads (with_did_numbers [] office)))
        end].
Proof.
  apply (unresolved_join_falls_back (with_did_numbers [] office) join caller_leg
           quiet); reflexivity.
Defined.

Lemma status_update_witness :
  new_lookups quiet
    (world_after
       (incomingCallNotification office
          (webhook None (Some "ringing") (Some "+15553334444"))) quiet)
  = [UserByPhone
       (default "" (To (webhook None (Some "ringing") (Some "+15553334444"))))]
  /\ requests
       (world_after
          (incomingCallNotification office
             (webhook None (Some "ringing") (Some "+15553334444"))) quiet)
     = requests quiet
  /\ call_logs
       (world_after
          (incomingCallNotification office
             (webhook None (Some "ringing") (Some "+15553334444"))) quiet)
     = call_logs quiet
  /\ forall m,
       In m (new_emitted quiet
               (world_after
                  (incomingCallNotification office
                     (webhook None (Some "ringing") (Some "+15553334444"))) quiet)) ->
       status_channel (channel m).
Proof.
  apply (status_update_consults_only_did_numbers office
           (webhook None (Some "ringing") (Some "+15553334444")) "ringing" quiet).
  - reflexivity.
  - reflexivity.
  - discriminate.
  - discriminate.
Defined.

Lemma null_status_row_witness :
  result_of
    (incomingCallNotification (with_did_numbers [unprovisioned] office) join) quiet
  = Throw "Error receiving webhook data"
  /\ (forall phone,
        ~ In (RingGroupByPhone phone)
             (new_lookups quiet
                (world_after
                   (incomingCallNotification
                      (with_did_numbers [unprovisioned] office) join) quiet)))
  /\ (forall m,
        In m (new_emitted quiet
                (world_after
                   (incomingCallNotification
                      (with_did_numbers [unprovisioned] office) join) quiet)) ->
        channel m = "outbound-call-status").
Proof.
  apply (null_status_row_fails_the_event (with_did_numbers [unprovisioned] office)
           join quiet unprovisioned).
  - left. split; [reflexivity|]. exists caller_leg. repeat split.
  - reflexivity.
  - reflexivity.
Defined.

Lemma incomplete_transfer_witness :
  attendedTransfer office unfinished_request quiet
  = (Ok {| status := 400;
           json := ("error",
                    "conferenceSid, originalCallSid, consultFrom, consultTo, consultUrl are required") |},
     quiet).
Proof.
  apply (incomplete_transfer_is_rejected office unfinished_request quiet).
  reflexivity.
Defined.

Lemma completed_transfer_witness :
  result_of (attendedTransfer office transfer_request) quiet
  = Ok {| status := 200;
          json := ("message",
                   "Attended transfer complete (original unheld, consult call bridged)") |}
  /\ new_requests quiet (world_after (attendedTransfer office transfer_request) quiet)
     = [ParticipantUpdate "CF1" "CA1" true;
        CallsCreate "https://example.com/consult.xml" "+15553334444" "+15557778888";
        CallsUpdate "CA2" LAML_BIN_URL_FOR_CONFERENCE;
        ParticipantUpdate "CF1" "CA1" false]
  /\ on_hold (world_after (attendedTransfer office transfer_request) quiet)
       !! original transfer_request = Some false
  /\ is_Some
       (call_logs (world_after (attendedTransfer office transfer_request) quiet)
          !! "CA2").
Proof.
  apply (completed_transfer office transfer_request consult_leg quiet);
    try reflexivity.
  discriminate.
Defined.

Lemma failed_transfer_witness :
  on_hold (world_after (attendedTransfer office_no_dial transfer_request) quiet)
    !! original transfer_request
  = if participant_update office_no_dial (fst (original transfer_request))
         (snd (original transfer_request)) true
    then Some true
    else on_hold quiet !! original transfer_request.
Proof.
  apply (failed_transfer_keeps_hold office_no_dial transfer_request
           "Failed to create consultation call: Failed to initiate call" quiet).
  - reflexivity.
  - reflexivity.
Defined.


Lemma dial_store_failure_witness :
  dial office_no_call_log "+15553334444" "+15557778888"
    "https://example.com/consult.xml" quiet
  = (Throw "Failed to initiate call",
     with_requests
       (requests quiet ++
        [CallsCreate "https://example.com/consult.xml" "+15553334444"
           "+15557778888"]) quiet).
Proof.
  apply (dial_store_failure_orphans_call office_no_call_log "+15553334444"
           "+15557778888" "https://example.com/consult.xml" consult_leg quiet).
  - reflexivity.
  - reflexivity.
Defined.

Lemma refactored_notification_witness :
  incomingCallNotification office join quiet
  = Original.incomingCallNotification office join quiet.
Proof.
  apply (refactored_notification_agrees office join quiet).
  intros d [<-|[]]. discriminate.
Defined.

Lemma original_null_status_witness :
  result_of
    (Original.incomingCallNotification (with_did_numbers [unprovisioned] office) join)
    quiet = Ok tt
  /\ result_of
       (incomingCallNotification (with_did_numbers [unprovisioned] office) join) quiet
     = Throw "Error receiving webhook data"
  /\ map channel
       (new_emitted quiet
          (world_after
             (Original.incomingCallNotification
                (with_did_numbers [unprovisioned] office) join) quiet))
     = ["outbound-call-status";
        match List.find (fun g => String.eqb (rg_phone_number g) (ci_to caller_leg))
                        (ring_groups (with_did_numbers [unprovisioned] office)) with
        | Some _ => "ring-group-notification"
        | None => "incoming-call"
        end]
  /\ map channel
       (new_emitted quiet
          (world_after
             (incomingCallNotification
                (with_did_numbers [unprovisioned] office) join) quiet))
     = ["outbound-call-status"].
Proof.
  apply (original_null_status_falls_back (with_did_numbers [unprovisioned] office)
           join caller_leg unprovisioned quiet); reflexivity.
Defined.

Lemma recording_validation_witness :
  Recording.recordingStatusCallback office
    (conference_recording "" "https://files.example/CF1.wav") recorded
  = (Ok (Json 400 "error"
           (if Js.truthy
                 (Recording.CallSid
                    (conference_recording "" "https://files.example/CF1.wav"))
               || Js.truthy
                    (Recording.ConferenceSid
                       (conference_recording "" "https://files.example/CF1.wav"))
            then "Missing RecordingUrl"
            else "Missing callSid or conferenceSid")), recorded).
Proof.
  apply (recording_callback_validates office
           (conference_recording "" "https://files.example/CF1.wav") recorded).
  left. split; reflexivity.
Defined.

Lemma recording_update_witness :
  call_logs (world_after (Recording.recordingStatusCallback office call_recording)
               recorded) !! "CA1"
  = recorded_row (of_string (Recording.RecordingUrl call_recording))
      (parsed_duration (Recording.RecordingDuration call_recording))
      (of_string (Recording.sidUsedForLookup call_recording))
    <$> (call_logs recorded !! "CA1").
Proof.
  apply (recording_callback_updates_selected_rows office call_recording recorded
           "CA1"); reflexivity.
Defined.

Lemma recording_without_row_witness :
  result_of (Recording.recordingStatusCallback office call_recording) quiet
  = Ok (Json 404 "error" "No matching record found")
  /\ call_logs (world_after (Recording.recordingStatusCallback office call_recording)
                  quiet)
     = call_logs quiet.
Proof.
  apply (recording_callback_without_row office call_recording quiet);
    try reflexivity.
  intros k r H. cbn in H. rewrite lookup_empty in H. discriminate.
Defined.

Lemma recording_prefers_CallSid_witness :
  Recording.recordingStatusCallback office
    (with_ConferenceSid (Some "CF9") call_recording) recorded
  = Recording.recordingStatusCallback office call_recording recorded.
Proof.
  apply (recording_callback_prefers_CallSid office call_recording (Some "CF9")
           recorded).
  reflexivity.
Defined.

Lemma conference_recording_witness :
  result_of
    (Recording.recordingStatusCallback office
       (conference_recording "CF1" "https://files.example/CF1.wav"))
    (world_after (incomingCallNotification office join) quiet)
  = Ok (Send 200 "OK")
  /\ r_recording_url <$>
       (call_logs
          (world_after
             (Recording.recordingStatusCallback office
                (conference_recording "CF1" "https://files.example/CF1.wav"))
             (world_after (incomingCallNotification office join) quiet))
          !! ci_sid caller_leg)
     = Some (VText "https://files.example/CF1.wav").
Proof.
  apply (conference_recording_reaches_joined_call office join caller_leg "CF1"
           "https://files.example/CF1.wav" quiet);
    try reflexivity; discriminate.
Defined.

Lemma assignment_needs_a_free_number_witness :
  Did.assignDidToUser office carrier "asmith" taken
  = (Throw "No 'Free' DIDs available to assign.", taken).
Proof.
  apply (assignment_needs_a_free_number office carrier "asmith" taken).
  - reflexivity.
  - intros n [<-|[]]. discriminate.
Defined.

Lemma assignment_takes_a_free_number_witness :
  (exists n, In n (Did.rows stock)
             /\ did_phone_number n = "+15553334444" /\ did_status n = Some "Free")
  /\ Did.rows (snd (Did.assignDidToUser office carrier "asmith" stock))
     = map (fun n =>
              if String.eqb (did_phone_number n) "+15553334444"
              then {| did_phone_number := did_phone_number n;
                      did_status := Some "Assigned";
                      assigned_user := Some "asmith" |}
              else n) (Did.rows stock).
Proof.
  apply (assignment_takes_a_free_number office carrier "asmith" "+15553334444" stock).
  vm_compute. reflexivity.
Defined.

Lemma assignment_is_kept_witness :
  fst (Did.assignDidToUser office carrier_unconfigured "asmith" stock)
  = Throw ("Incoming phone number " +:+ "+15553334444" +:+ " not found")
  /\ Did.rows (snd (Did.assignDidToUser office carrier_unconfigured "asmith" stock))
     = map (Did.assign "asmith" "+15553334444") (Did.rows stock).
Proof.
  apply (assignment_is_kept_when_configuration_fails office carrier_unconfigured
           "asmith" "+15553334444" stock).
  - reflexivity.
  - vm_compute. reflexivity.
  - reflexivity.
Defined.

Lemma numbers_are_not_assigned_twice_witness :
  fst (Did.assignDidToUser office carrier "asmith" stock) = Ok "+15553334444"
  /\ fst (Did.assignDidToUser office carrier "bjones"
            (snd (Did.assignDidToUser office carrier "asmith" stock)))
     = Ok "+15557770000"
  /\ "+15553334444" <> "+15557770000".
Proof.
  split; [vm_compute; reflexivity|]. split; [vm_compute; reflexivity|].
  apply (numbers_are_not_assigned_twice office carrier "asmith" "bjones"
           "+15553334444" "+15557770000" stock).
  - vm_compute. reflexivity.
  - vm_compute. reflexivity.
Defined.

Lemma assigned_number_is_listed_witness :
  exists listed,
    fst (Did.getDidNumbersByUser office "asmith"
           (snd (Did.assignDidToUser office carrier "asmith" stock))) = Ok listed
    /\ In {| did_phone_number := "+15553334444"; did_status := Some "Assigned";
             assigned_user := Some "asmith" |} listed.
Proof.
  apply (assigned_number_is_listed office carrier "asmith" "+15553334444" stock).
  vm_compute. reflexivity.
Defined.

Lemma assigned_number_is_routed_witness :
  result_of
    (incomingCallNotification
       (with_did_numbers
          (Did.rows (snd (Did.assignDidToUser office carrier "asmith" stock))) office)
       join) quiet
  = Ok tt
  /\ map channel
       (new_emitted quiet
          (world_after
             (incomingCallNotification
                (with_did_numbers
                   (Did.rows (snd (Did.assignDidToUser office carrier "asmith" stock)))
                   office)
                join) quiet))
     = ["outbound-call-status"; "user-notification-" +:+ "asmith"].
Proof.
  apply (assigned_number_is_routed office carrier "asmith" "+15553334444" stock
           join caller_leg quiet); reflexivity.
Defined.

Lemma buyNumbers_witness :
  Did.buyNumbers office carrier "555" 3 stock
  = (Throw "Number is no longer available",
     {| Did.rows := Did.rows stock ++ map Did.freeRow ["+15559990001"];
        Did.sent := Did.sent stock
                    ++ Did.ListAvailable (Js.parseInt "555") 3
                       :: map Did.Create ["+15559990001"]
                          ++ [Did.Create "+15559990002"] |}).
Proof.
  apply (buyNumbers_stops_at_first_failure office carrier "555" 3
           ["+15559990001"] ["+15559990001"] "+15559990002" ["+15559990003"]
           "Number is no longer available" stock).
  - vm_compute. discriminate.
  - reflexivity.
  - reflexivity.
  - repeat constructor.
  - reflexivity.
Defined.

End FurtherScenarios.
